(** * nexus-ai-notes: the client-side session and data-synchronisation layer

    A shallow embedding of the TypeScript sources:
    - [api/api.ts]               the request wrapper [apiRequest];
    - [context/AuthContext.tsx]  the session store (bootstrap, login,
                                 register, logout);
    - [pages/Dashboard.tsx]      [filterDocuments];
    - [pages/Search.tsx]         [handleSearch] and the recent-search list;
    - [pages/QA.tsx]             [handleAskQuestion] and the transcript;
    - [pages/AddEditDoc.tsx]     [handleSubmit], [handleAddTag] and the other
                                 handlers of the form;
    - [components/DocCard.tsx]   [canEdit], [truncateContent] and the badges;
    - [components/Navbar.tsx]    [handleLogout] and the guard of the pages.

    Modelling conventions.
    - JavaScript strings are [string] (sequences of 8-bit characters);
      [trim] and [toLowerCase] act on the ASCII range.
    - [localStorage] and plain header objects are [gmap string _].
    - A React component's state is a record; an event handler maps the
      state it closed over to the state after the flushed updates.
    - An [async] handler with one [await] is split in two phases: the
      synchronous prefix, which either finishes or issues a request, and the
      continuation, which resumes with the settled promise.
    - Toasts, navigations and issued requests are effects of a handler and
      are returned as a log. *)

From Stdlib Require Import ZArith Ascii String List Bool Lia DecimalString.
From stdpp Require Import base option list gmap strings.

Set Warnings "-register-all".
Local Open Scope Z_scope.

(** ** JavaScript values and built-ins *)

Module Js.

(** *** Strings *)

(** White space removed by [String.prototype.trim] (ASCII range): TAB, LF,
    VT, FF, CR and SPACE. *)
Definition is_ws (c : ascii) : bool :=
  let n := nat_of_ascii c in
  Nat.eqb n 32 || (Nat.leb 9 n && Nat.leb n 13).

Fixpoint trimStart (s : string) : string :=
  match s with
  | EmptyString => EmptyString
  | String c s' => if is_ws c then trimStart s' else s
  end.

Fixpoint trimEnd (s : string) : string :=
  match s with
  | EmptyString => EmptyString
  | String c s' =>
      match trimEnd s' with
      | EmptyString => if is_ws c then EmptyString else String c EmptyString
      | t => String c t
      end
  end.

(** [s.trim()] *)
Definition trim (s : string) : string := trimEnd (trimStart s).

Definition lower_ascii (c : ascii) : ascii :=
  let n := nat_of_ascii c in
  if Nat.leb 65 n && Nat.leb n 90 then ascii_of_nat (n + 32) else c.

(** [s.toLowerCase()], on the ASCII range.  The theorems use it as the name of
    the built-in: apart from [toLowerCase "" = ""], none relies on which
    characters it lowers or on its working one character at a time. *)
Fixpoint toLowerCase (s : string) : string :=
  match s with
  | EmptyString => EmptyString
  | String c s' => String (lower_ascii c) (toLowerCase s')
  end.

(** [s.startsWith(t)] *)
Fixpoint startsWith (s t : string) {struct t} : bool :=
  match t, s with
  | EmptyString, _ => true
  | String _ _, EmptyString => false
  | String b t', String a s' => if Ascii.eqb a b then startsWith s' t' else false
  end.

(** [s.includes(t)]: [t] occurs in [s] at some position. *)
Fixpoint includes (s t : string) : bool :=
  startsWith s t ||
  match s with
  | EmptyString => false
  | String _ s' => includes s' t
  end.

(** Truthiness of a string: only the empty string is falsy. *)
Definition truthy_str (s : string) : bool :=
  match s with EmptyString => false | _ => true end.

(** Truthiness of a [string | null | undefined]. *)
Definition truthy_opt (o : option string) : bool :=
  match o with Some s => truthy_str s | None => false end.

(** [o || d] for a [string | null | undefined] on the left. *)
Definition or_str (o : option string) (d : string) : string :=
  match o with
  | Some s => if truthy_str s then s else d
  | None => d
  end.

(** [o || d] for an optional array on the left (every array is truthy). *)
Definition or_list {A} (o : option (list A)) (d : list A) : list A :=
  match o with Some l => l | None => d end.

(** [n.toString()] for an integer [n]. *)
Definition toString (n : Z) : string := NilZero.string_of_int (Z.to_int n).

(** [l.slice(0, n)] *)
Definition slice0 {A} (n : nat) (l : list A) : list A := firstn n l.

(** [l.includes(x)] on an array of strings. *)
Definition list_includes (l : list string) (x : string) : bool :=
  existsb (String.eqb x) l.

(** *** JSON values *)

(** The values [JSON.parse] can return.  Numbers are kept integral. *)
Inductive value : Type :=
| JNull
| JBool (b : bool)
| JNum (n : Z)
| JStr (s : string)
| JArr (items : list value)
| JObj (fields : list (string * value)).

(** [!!v] *)
Definition truthy (v : value) : bool :=
  match v with
  | JNull => false
  | JBool b => b
  | JNum n => negb (n =? 0)
  | JStr s => truthy_str s
  | JArr _ | JObj _ => true
  end.

(** The two JSON built-ins.  [parse s = None] stands for the [SyntaxError]
    that [JSON.parse(s)] throws. *)
Class JSON := {
  parse : string -> option value;
  stringify : value -> string;
}.

(** A reference codec for concrete runs: it reads the literals that occur
    in the examples and prints scalars, flat arrays of strings without
    escapes, and the empty object. *)
Definition parse_literal (s : string) : option value :=
  if String.eqb s "null" then Some JNull
  else if String.eqb s "true" then Some (JBool true)
  else if String.eqb s "false" then Some (JBool false)
  else if String.eqb s "0" then Some (JNum 0)
  else if String.eqb s "{}" then Some (JObj [])
  else if String.eqb s "[]" then Some (JArr [])
  else None.

Definition quote (s : string) : string :=
  String (ascii_of_nat 34) (s +:+ String (ascii_of_nat 34) EmptyString).

Fixpoint join (sep : string) (l : list string) : string :=
  match l with
  | [] => EmptyString
  | [x] => x
  | x :: l' => x +:+ sep +:+ join sep l'
  end.

Definition stringify_flat (v : value) : string :=
  match v with
  | JNull => "null"
  | JBool true => "true"
  | JBool false => "false"
  | JNum n => toString n
  | JStr s => quote s
  | JArr items =>
      "[" +:+ join "," (map (fun i => match i with JStr s => quote s | _ => "null" end) items) +:+ "]"
  | JObj _ => "{}"
  end.

Definition reference_json : JSON :=
  {| parse := parse_literal; stringify := stringify_flat |}.

(** *** Exceptions and promises *)

(** The result of evaluating a block that may throw. *)
Inductive completion (A : Type) : Type :=
| Normal (a : A)
| Throw (message : string).
Arguments Normal {A} a.
Arguments Throw {A} message.

(** Sequencing inside a block: a throw skips the rest. *)
#[global] Instance completion_bind : MBind completion :=
  fun A B k c => match c with Normal a => k a | Throw e => Throw e end.

(** [try { body } catch (e) { handler }] *)
Definition try_catch {A} (body : completion A) (handler : string -> A) : A :=
  match body with
  | Normal a => a
  | Throw e => handler e
  end.

(** A settled promise. *)
Inductive settled (A : Type) : Type :=
| Fulfilled (a : A)
| Rejected (message : string).
Arguments Fulfilled {A} a.
Arguments Rejected {A} message.

(** [await p] inside a [try] block. *)
Definition await {A} (p : settled A) : completion A :=
  match p with
  | Fulfilled a => Normal a
  | Rejected e => Throw e
  end.

(** *** Property access and substrings *)

(** [v?.[k]] for a key [k] that only plain objects can carry (no array,
    string, number or boolean has it): the value bound to [k], the last one
    when the key is repeated; [None] is [undefined]. *)
Definition prop (k : string) (v : value) : option value :=
  match v with
  | JObj fields =>
      fold_left (fun found kx => if String.eqb (fst kx) k then Some (snd kx) else found)
        fields None
  | _ => None
  end.

(** [x === s] for a possibly undefined [x] and a string [s]. *)
Definition strict_eq_str (x : option value) (s : string) : bool :=
  match x with
  | Some (JStr t) => String.eqb t s
  | _ => false
  end.

(** [s.substring(0, n)] for an integer [n]; a negative [n] counts as 0. *)
Fixpoint substring0 (n : nat) (s : string) : string :=
  match n, s with
  | S n', String c s' => String c (substring0 n' s')
  | _, _ => EmptyString
  end.

End Js.

(** ** Effects shared by the handlers *)

Module Ui.

(** What a handler does to its collaborators: the toast notifier, the
    router and the focused input. *)
Inductive effect : Type :=
| Toast (title description : string) (destructive : bool)
| Navigate (path : string)
| Focus.

End Ui.

(** ** [localStorage] *)

Module Storage.

Definition getItem (k : string) (ls : gmap string string) : option string := ls !! k.
Definition setItem (k v : string) (ls : gmap string string) : gmap string string := <[k:=v]> ls.
Definition removeItem (k : string) (ls : gmap string string) : gmap string string := delete k ls.

End Storage.

(** ** api/api.ts *)

Module Api.
Import Js.

(** The fields of [RequestInit] the wrapper and its callers set.  [None] is
    an absent key. *)
Record RequestInit : Type := {
  method : option string;
  body : option string;
  headers : option (gmap string string);
}.

(** [{ ...a, ...b }] on plain string-valued objects: keys of [b] win. *)
Definition spread (a b : gmap string string) : gmap string string := b ∪ a.

(** [{ ...base, ...over }] on [RequestInit]: every key present in [over]
    replaces the one of [base]. *)
Definition spread_init (base over : RequestInit) : RequestInit :=
  {| method := match method over with Some m => Some m | None => method base end;
     body := match body over with Some b => Some b | None => body base end;
     headers := match headers over with Some h => Some h | None => headers base end |}.

(** A received response: [response.statusText] and the promise
    [response.json()], under [Success] when [response.ok] holds (a 2xx
    status) and under [Failure] otherwise.  A success body decodes to a [B],
    the body of a non-2xx response to an [E]. *)
Inductive response (B E : Type) : Type :=
| Success (statusText : string) (json : settled B)
| Failure (statusText : string) (json : settled E).
Arguments Success {B E} statusText json.
Arguments Failure {B E} statusText json.

(** [import.meta.env.VITE_API_URL || 'http://localhost:5000'] *)
Definition API_BASE_URL (env : option string) : string :=
  or_str env "http://localhost:5000".

Definition getAuthToken (ls : gmap string string) : option string :=
  Storage.getItem "token" ls.

(** The [config] object [apiRequest] passes to [fetch]. *)
Definition apiRequest_config (ls : gmap string string) (options : RequestInit) : RequestInit :=
  let token := getAuthToken ls in
  spread_init
    {| method := None;
       body := None;
       headers := Some
         (spread
            (spread {[ "Content-Type" := "application/json" ]}
               (match token with
                | Some t => if truthy_str t then {[ "Authorization" := "Bearer " +:+ t ]} else ∅
                | None => ∅
                end))
            (default ∅ (headers options))) |}
    options.

(** The URL [apiRequest] fetches. *)
Definition apiRequest_url (env : option string) (endpoint : string) : string :=
  API_BASE_URL env +:+ endpoint.

(** What [apiRequest] settles to once [fetch] has settled. *)
Definition apiRequest_result {B E} (fetched : settled (response B E)) : settled B :=
  match fetched with
  | Rejected e => Rejected e
  | Fulfilled r =>
      match r with
      | Failure text _ => Rejected ("API Error: " +:+ text)
      | Success _ json => json
      end
  end.

(** A call of the wrapper: the endpoint and the options it is given. *)
Record call : Type := { endpoint : string; options : RequestInit }.

Section Endpoints.
Context {J : JSON}.

Definition post (path : string) (payload : value) : call :=
  {| endpoint := path;
     options := {| method := Some "POST"; body := Some (stringify payload); headers := None |} |}.

(** [searchAPI.searchDocuments(query, semantic)] *)
Definition searchDocuments (query : string) (semantic : bool) : call :=
  post "/api/search" (JObj [("query", JStr query); ("semantic", JBool semantic)]).

(** [searchAPI.askQuestion(question)] *)
Definition askQuestion (question : string) : call :=
  post "/api/qa" (JObj [("question", JStr question)]).

(** [documentsAPI.create(document)] *)
Definition create (title content : string) (tags : list string) : call :=
  post "/api/documents"
    (JObj [("title", JStr title); ("content", JStr content); ("tags", JArr (map JStr tags))]).

(** [documentsAPI.update(id, document)] *)
Definition update (id title content : string) (tags : list string) : call :=
  {| endpoint := "/api/documents/" +:+ id;
     options := {| method := Some "PUT";
                   body := Some (stringify
                     (JObj [("title", JStr title); ("content", JStr content);
                            ("tags", JArr (map JStr tags))]));
                   headers := None |} |}.

Definition bare (path : string) (verb : option string) : call :=
  {| endpoint := path; options := {| method := verb; body := None; headers := None |} |}.

(** [documentsAPI.getAll()] *)
Definition getAll : call := bare "/api/documents" None.

(** [documentsAPI.getById(id)] *)
Definition getById (id : string) : call := bare ("/api/documents/" +:+ id) None.

(** [documentsAPI.delete(id)] *)
Definition delete (id : string) : call := bare ("/api/documents/" +:+ id) (Some "DELETE").

(** [documentsAPI.summarize(id)] *)
Definition summarize (id : string) : call :=
  bare ("/api/documents/" +:+ id +:+ "/summarize") (Some "POST").

(** [documentsAPI.generateTags(id)] *)
Definition generateTags (id : string) : call :=
  bare ("/api/documents/" +:+ id +:+ "/generate-tags") (Some "POST").

(** [authAPI.login(email, password)] and [authAPI.register(email, password)] *)
Definition authLogin (email password : string) : call :=
  post "/api/auth/login" (JObj [("email", JStr email); ("password", JStr password)]).

Definition authRegister (email password : string) : call :=
  post "/api/auth/register" (JObj [("email", JStr email); ("password", JStr password)]).

End Endpoints.

End Api.

(** ** context/AuthContext.tsx *)

Module Auth.
Import Js Ui.

Inductive Role : Type := RoleUser | RoleAdmin.

Record User : Type := { id : string; email : string; role : Role }.

Definition json_of_role (r : Role) : value :=
  match r with RoleUser => JStr "user" | RoleAdmin => JStr "admin" end.

(** A [User] as the JavaScript object it is. *)
Definition json_of_user (u : User) : value :=
  JObj [("id", JStr (id u)); ("email", JStr (email u)); ("role", json_of_role (role u))].

(** The provider's state.  [user] is [User | null]; what bootstrap stores in
    it is whatever [JSON.parse] returned. *)
Record state : Type := { user : value; loading : bool }.

Definition initial : state := {| user := JNull; loading := true |}.

Definition setUser (u : value) (st : state) : state :=
  {| user := u; loading := loading st |}.

Definition setLoading (b : bool) (st : state) : state :=
  {| user := user st; loading := b |}.

(** [isAuthenticated: !!user] *)
Definition isAuthenticated (st : state) : bool := truthy (user st).

(** Success body of [POST /api/auth/login]. *)
Record LoginData : Type := { token : string; data_user : User }.

(** Body of a non-2xx authentication response. *)
Record ErrorBody : Type := { message : option string }.

Section Provider.
Context {J : JSON}.

(** The bootstrap effect, run once on mount. *)
Definition bootstrap (ls : gmap string string) (st : state) : gmap string string * state :=
  let token := Storage.getItem "token" ls in
  let '(ls1, st1) :=
    if truthy_opt token then
      try_catch
        (match parse (or_str (Storage.getItem "user" ls) "{}") with
         | Some userData => Normal (ls, setUser userData st)
         | None => Throw "SyntaxError"
         end)
        (fun _ => (Storage.removeItem "user" (Storage.removeItem "token" ls), st))
    else (ls, st) in
  (ls1, setLoading false st1).

(** The request [login] and [register] send with [fetch]. *)
Definition credentials_request (env : option string) (path : string) (email password : string)
  : string * Api.RequestInit :=
  (or_str env "http://localhost:5000" +:+ path,
   {| Api.method := Some "POST";
      Api.headers := Some {[ "Content-Type" := "application/json" ]};
      Api.body := Some (stringify (JObj [("email", JStr email); ("password", JStr password)])) |}).

Definition login_request (env : option string) (email password : string) :=
  credentials_request env "/api/auth/login" email password.

(** [login] from the point where [fetch] has settled.  The result is the
    completion of the whole [async] body: [Normal] carries the storage, the
    state, the toasts and the returned boolean. *)
Definition login (ls : gmap string string) (st : state)
    (fetched : settled (Api.response LoginData ErrorBody))
  : completion (gmap string string * state * list effect * bool) :=
  Normal
    (try_catch
       (response ← await fetched;
        match response with
        | Api.Success _ json =>
            data ← await json;
            let ls1 := Storage.setItem "token" (token data) ls in
            let ls2 := Storage.setItem "user" (stringify (json_of_user (data_user data))) ls1 in
            Normal (ls2, setUser (json_of_user (data_user data)) st,
                    [Toast "Success" "Logged in successfully!" false], true)
        | Api.Failure _ json =>
            error ← await json;
            Normal (ls, st,
                    [Toast "Login Failed" (or_str (message error) "Invalid credentials") true],
                    false)
        end)
       (fun _ => (ls, st, [Toast "Login Failed" "Network error. Please try again." true], false))).

Definition register_request (env : option string) (email password : string) :=
  credentials_request env "/api/auth/register" email password.

(** [register] from the point where [fetch] has settled.  The success body
    is not read. *)
Definition register {B} (ls : gmap string string) (st : state)
    (fetched : settled (Api.response B ErrorBody))
  : completion (gmap string string * state * list effect * bool) :=
  Normal
    (try_catch
       (response ← await fetched;
        match response with
        | Api.Success _ _ =>
            Normal (ls, st,
                    [Toast "Success" "Account created successfully! Please log in." false], true)
        | Api.Failure _ json =>
            error ← await json;
            Normal (ls, st,
                    [Toast "Registration Failed"
                       (or_str (message error) "Unable to create account") true],
                    false)
        end)
       (fun _ => (ls, st, [Toast "Registration Failed" "Network error. Please try again." true],
                  false))).

Definition logout (ls : gmap string string) (st : state)
  : gmap string string * state * list effect :=
  (Storage.removeItem "user" (Storage.removeItem "token" ls),
   setUser JNull st,
   [Toast "Logged out" "See you next time!" false]).

(** The operations a caller can invoke once the provider is mounted, each
    with the way its request settles. *)
Inductive operation : Type :=
| Login (fetched : settled (Api.response LoginData ErrorBody))
| Register (fetched : settled (Api.response unit ErrorBody))
| Logout.

(** The storage and state an [async] operation leaves behind; a raised
    exception would leave them as they were. *)
Definition settle (s : gmap string string * state)
    (c : completion (gmap string string * state * list effect * bool))
  : gmap string string * state :=
  match c with
  | Normal (ls, st, _, _) => (ls, st)
  | Throw _ => s
  end.

Definition perform (s : gmap string string * state) (op : operation)
  : gmap string string * state :=
  match op with
  | Login fetched => settle s (login s.1 s.2 fetched)
  | Register fetched => settle s (register s.1 s.2 fetched)
  | Logout => (logout s.1 s.2).1
  end.

(** The session after mounting on the storage [ls] and then performing
    [ops] in order. *)
Definition session_after (ls : gmap string string) (ops : list operation)
  : gmap string string * state :=
  fold_left perform ops (bootstrap ls initial).

End Provider.

End Auth.

(** ** pages/Dashboard.tsx *)

Module Dashboard.
Import Js.

Record Author : Type := { author_email : string; author_role : string }.

Record Document : Type := {
  _id : string;
  title : string;
  content : string;
  tags : list string;
  summary : option string;
  createdBy : Author;
  createdAt : string;
  updatedAt : string;
}.

(** The callback of the first [filter]: the text match. *)
Definition matches_query (searchQuery : string) (doc : Document) : bool :=
  includes (toLowerCase (title doc)) (toLowerCase searchQuery)
  || includes (toLowerCase (content doc)) (toLowerCase searchQuery)
  || match summary doc with
     | Some s => truthy_str s && includes (toLowerCase s) (toLowerCase searchQuery)
     | None => false
     end.

(** The callback of the second [filter]:
    [selectedTags.every(tag => doc.tags.includes(tag))]. *)
Definition matches_tags (selectedTags : list string) (doc : Document) : bool :=
  forallb (fun tag => list_includes (tags doc) tag) selectedTags.

(** [filterDocuments]: the value handed to [setFilteredDocuments]. *)
Definition filterDocuments (documents : list Document) (searchQuery : string)
    (selectedTags : list string) : list Document :=
  let filtered := documents in
  let filtered :=
    if truthy_str searchQuery then List.filter (matches_query searchQuery) filtered
    else filtered in
  let filtered :=
    if Nat.ltb 0 (length selectedTags) then List.filter (matches_tags selectedTags) filtered
    else filtered in
  filtered.

End Dashboard.

(** ** Handlers with one [await] *)

Module Async.
Import Ui.

(** The synchronous prefix of an [async] handler over a component state
    [S]: either it returns before any request, or it stops at its [await]
    with the call it issued. *)
Inductive started (S : Type) : Type :=
| Returned (st : S) (effects : list effect)
| Awaiting (st : S) (effects : list effect) (request : Api.call).
Arguments Returned {S} st effects.
Arguments Awaiting {S} st effects request.

Definition state_of {S} (r : started S) : S :=
  match r with Returned st _ | Awaiting st _ _ => st end.

Definition effects_of {S} (r : started S) : list effect :=
  match r with Returned _ e | Awaiting _ e _ => e end.

Definition request_of {S} (r : started S) : option Api.call :=
  match r with Returned _ _ => None | Awaiting _ _ c => Some c end.

End Async.

(** ** pages/Search.tsx *)

Module Search.
Import Js Ui Async.

Record SearchResult : Type := {
  document : Dashboard.Document;
  relevanceScore : option Z;
}.

Inductive mode : Type := regular | semantic.

Definition is_semantic (m : mode) : bool :=
  match m with semantic => true | regular => false end.

Record state : Type := {
  searchQuery : string;
  searchResults : list SearchResult;
  isSearching : bool;
  searchMode : mode;
  recentSearches : list string;
  hasSearched : bool;
}.

Definition setSearchResults (r : list SearchResult) (st : state) : state :=
  {| searchQuery := searchQuery st; searchResults := r; isSearching := isSearching st;
     searchMode := searchMode st; recentSearches := recentSearches st;
     hasSearched := hasSearched st |}.

Definition setIsSearching (b : bool) (st : state) : state :=
  {| searchQuery := searchQuery st; searchResults := searchResults st; isSearching := b;
     searchMode := searchMode st; recentSearches := recentSearches st;
     hasSearched := hasSearched st |}.

Definition setRecentSearches (l : list string) (st : state) : state :=
  {| searchQuery := searchQuery st; searchResults := searchResults st;
     isSearching := isSearching st; searchMode := searchMode st; recentSearches := l;
     hasSearched := hasSearched st |}.

Definition setHasSearched (b : bool) (st : state) : state :=
  {| searchQuery := searchQuery st; searchResults := searchResults st;
     isSearching := isSearching st; searchMode := searchMode st;
     recentSearches := recentSearches st; hasSearched := b |}.

(** Success body of [POST /api/search]: [SearchResult[]] or [{documents}]. *)
Inductive results : Type :=
| Bare (items : list SearchResult)
| Wrapped (documents : list SearchResult).

(** [results.documents || results] *)
Definition documents_of (r : results) : list SearchResult :=
  match r with Bare items => items | Wrapped documents => documents end.

(** [`${results.documents?.length || results.length}`] *)
Definition found_count (r : results) : string :=
  match r with
  | Bare items => toString (Z.of_nat (length items))
  | Wrapped documents =>
      if Nat.eqb (length documents) 0 then "undefined"
      else toString (Z.of_nat (length documents))
  end.

(** [[searchQuery, ...recentSearches.filter(s => s !== searchQuery)].slice(0, 5)] *)
Definition updatedRecent (searchQuery : string) (recentSearches : list string) : list string :=
  slice0 5
    (searchQuery :: List.filter (fun s => negb (String.eqb s searchQuery)) recentSearches).

Section Page.
Context {J : JSON}.

(** [handleSearch] up to its [await]. *)
Definition handleSearch_start (st : state) : started state :=
  if negb (truthy_str (trim (searchQuery st))) then Returned st []
  else
    Awaiting (setHasSearched true (setIsSearching true st)) []
      (Api.searchDocuments (searchQuery st) (is_semantic (searchMode st))).

(** [handleSearch] from its [await] on.  [closure] is the state the handler
    was created with (it reads [searchQuery] and [recentSearches] from it);
    [st] is the state the queued updates apply to. *)
Definition handleSearch_resume (closure : state) (ls : gmap string string) (st : state)
    (searched : settled results) : gmap string string * state * list effect :=
  let '(ls1, st1, effects) :=
    try_catch
      (results ← await searched;
       let st1 := setSearchResults (documents_of results) st in
       let updated := updatedRecent (searchQuery closure) (recentSearches closure) in
       let st2 := setRecentSearches updated st1 in
       let ls1 := Storage.setItem "recentSearches" (stringify (JArr (map JStr updated))) ls in
       Normal (ls1, st2,
               [Toast "Search Complete" ("Found " +:+ found_count results +:+ " documents") false]))
      (fun _ =>
         (ls, st, [Toast "Search Error" "Failed to search documents. Please try again." true])) in
  (ls1, setIsSearching false st1, effects).

(** One complete search with no other event in between. *)
Definition search (ls : gmap string string) (st : state) (searched : settled results)
  : gmap string string * state * list effect :=
  match handleSearch_start st with
  | Returned st1 effects => (ls, st1, effects)
  | Awaiting st1 _ _ => handleSearch_resume st ls st1 searched
  end.

(** An array of strings, as a value. *)
Definition strings_of (v : value) : option (list string) :=
  match v with
  | JArr items =>
      foldr (fun item rest =>
               match item, rest with
               | JStr s, Some l => Some (s :: l)
               | _, _ => None
               end)
        (Some []) items
  | _ => None
  end.

(** The mount effect that restores the recent searches.  A stored value that
    parses to something else than an array of strings would be put in the
    state as it is; that state is outside the [string[]] the component
    declares and the effect then has no result here ([None]). *)
Definition loadRecentSearches (ls : gmap string string) (st : state) : option state :=
  match Storage.getItem "recentSearches" ls with
  | Some saved =>
      if truthy_str saved then
        try_catch
          (match parse saved with
           | Some parsed =>
               Normal (match strings_of parsed with
                       | Some l => Some (setRecentSearches l st)
                       | None => None
                       end)
           | None => Throw "SyntaxError"
           end)
          (fun _ => Some st)
      else Some st
  | None => Some st
  end.

Definition setSearchQuery (q : string) (st : state) : state :=
  {| searchQuery := q; searchResults := searchResults st; isSearching := isSearching st;
     searchMode := searchMode st; recentSearches := recentSearches st;
     hasSearched := hasSearched st |}.

(** [handleRecentSearch]: the query is put in the input; the form is
    submitted by the timer once the component has rendered with it. *)
Definition handleRecentSearch (query : string) (st : state) : state :=
  setSearchQuery query st.

(** The click on a recent search followed by the submission it schedules. *)
Definition recentSearch (query : string) (ls : gmap string string) (st : state)
    (searched : settled results) : gmap string string * state * list effect :=
  search ls (handleRecentSearch query st) searched.

(** [clearSearch] *)
Definition clearSearch (st : state) : state :=
  setHasSearched false (setSearchResults [] (setSearchQuery "" st)).

End Page.

End Search.

(** ** pages/QA.tsx *)

Module QA.
Import Js Ui Async.

Inductive kind : Type := question | answer.

Record QAMessage : Type := {
  id : string;
  type : kind;
  content : string;
  timestamp : Z;
  sources : option (list string);
}.

Record state : Type := {
  messages : list QAMessage;
  currentQuestion : string;
  isAsking : bool;
}.

Definition setMessages (f : list QAMessage -> list QAMessage) (st : state) : state :=
  {| messages := f (messages st); currentQuestion := currentQuestion st;
     isAsking := isAsking st |}.

Definition setCurrentQuestion (q : string) (st : state) : state :=
  {| messages := messages st; currentQuestion := q; isAsking := isAsking st |}.

Definition setIsAsking (b : bool) (st : state) : state :=
  {| messages := messages st; currentQuestion := currentQuestion st; isAsking := b |}.

(** Success body of [POST /api/qa]: [{answer, sources?}]. *)
Record QAResponse : Type := {
  response_answer : option string;
  response_sources : option (list string);
}.

Definition no_answer : string :=
  "I apologize, but I couldn't find relevant information to answer your question.".

Definition error_answer : string :=
  "Sorry, I encountered an error while processing your question. Please try again.".

Definition questionMessage (now : Z) (text : string) : QAMessage :=
  {| id := toString now; type := question; content := text; timestamp := now;
     sources := None |}.

Definition answerMessage (now : Z) (response : QAResponse) : QAMessage :=
  {| id := toString (now + 1);
     type := answer;
     content := or_str (response_answer response) no_answer;
     timestamp := now;
     sources := Some (or_list (response_sources response) []) |}.

Definition errorMessage (now : Z) : QAMessage :=
  {| id := toString (now + 1); type := answer; content := error_answer; timestamp := now;
     sources := None |}.

Section Page.
Context {J : JSON}.

(** [handleAskQuestion] up to its [await]; [now] is the clock reading. *)
Definition handleAskQuestion_start (now : Z) (st : state) : started state :=
  if negb (truthy_str (trim (currentQuestion st))) || isAsking st then Returned st []
  else
    let text := trim (currentQuestion st) in
    let st1 := setCurrentQuestion "" st in
    let st2 := setIsAsking true st1 in
    let st3 := setMessages (fun prev => prev ++ [questionMessage now text]) st2 in
    Awaiting st3 [] (Api.askQuestion text).

(** [handleAskQuestion] from its [await] on, applied to the state current
    when the promise settles. *)
Definition handleAskQuestion_resume (now : Z) (st : state) (asked : settled QAResponse)
  : state * list effect :=
  let '(st1, effects) :=
    try_catch
      (response ← await asked;
       Normal (setMessages (fun prev => prev ++ [answerMessage now response]) st, []))
      (fun _ =>
         (setMessages (fun prev => prev ++ [errorMessage now]) st,
          [Toast "Error" "Failed to get AI response. Please try again." true])) in
  (setIsAsking false st1, effects ++ [Focus]).

(** One complete ask with no other event in between: the prefix at time
    [t1], then, when a request was issued, the continuation at time [t2]. *)
Definition ask (t1 t2 : Z) (st : state) (asked : settled QAResponse) : state :=
  match handleAskQuestion_start t1 st with
  | Returned st1 _ => st1
  | Awaiting st1 _ _ => fst (handleAskQuestion_resume t2 st1 asked)
  end.

(** The events of the page that touch the transcript, the input or the busy
    flag: typing, submitting the form, and the settling of a request. *)
Inductive event : Type :=
| Typed (text : string)
| Submitted (now : Z)
| Settled (now : Z) (asked : settled QAResponse).

(** The page between two events: the component state and the number of
    [handleAskQuestion] continuations waiting at their [await]. *)
Record page : Type := { view : state; waiting : nat }.

Definition step (p : page) (e : event) : page :=
  match e with
  | Typed text => {| view := setCurrentQuestion text (view p); waiting := waiting p |}
  | Submitted now =>
      match handleAskQuestion_start now (view p) with
      | Returned st _ => {| view := st; waiting := waiting p |}
      | Awaiting st _ _ => {| view := st; waiting := S (waiting p) |}
      end
  | Settled now asked =>
      match waiting p with
      | O => p
      | S n => {| view := (handleAskQuestion_resume now (view p) asked).1; waiting := n |}
      end
  end.

Definition run (p : page) (events : list event) : page := fold_left step events p.

(** [clearHistory] *)
Definition clearHistory (ls : gmap string string) (st : state)
  : gmap string string * state * list effect :=
  (Storage.removeItem "qaHistory" ls,
   setMessages (fun _ => []) st,
   [Toast "History Cleared" "Conversation history has been cleared." false]).

End Page.

Section History.
Context {J : JSON}.

(** [date.toISOString()], the form in which [JSON.stringify] writes a valid
    [Date]. *)
Variable toISOString : Z -> string.

Definition json_of_kind (k : kind) : value :=
  match k with question => JStr "question" | answer => JStr "answer" end.

(** A transcript entry as [JSON.stringify] sees it: an absent [sources] is
    left out. *)
Definition json_of_message (m : QAMessage) : value :=
  JObj ([("id", JStr (id m)); ("type", json_of_kind (type m)); ("content", JStr (content m));
         ("timestamp", JStr (toISOString (timestamp m)))]
        ++ match sources m with
           | Some listed => [("sources", JArr (map JStr listed))]
           | None => []
           end).

(** The effect that saves the transcript whenever [messages] has changed. *)
Definition saveHistory (ls : gmap string string) (st : state) : gmap string string :=
  if Nat.ltb 0 (length (messages st)) then
    Storage.setItem "qaHistory" (stringify (JArr (map json_of_message (messages st)))) ls
  else ls.

End History.

End QA.

(** ** pages/AddEditDoc.tsx *)

Module AddEditDoc.
Import Js Ui Async.

Record state : Type := {
  title : string;
  content : string;
  tags : list string;
  newTag : string;
  isSubmitting : bool;
  isLoadingDoc : bool;
  isGeneratingTags : bool;
}.

Definition setTags (l : list string) (st : state) : state :=
  {| title := title st; content := content st; tags := l; newTag := newTag st;
     isSubmitting := isSubmitting st; isLoadingDoc := isLoadingDoc st;
     isGeneratingTags := isGeneratingTags st |}.

Definition setNewTag (t : string) (st : state) : state :=
  {| title := title st; content := content st; tags := tags st; newTag := t;
     isSubmitting := isSubmitting st; isLoadingDoc := isLoadingDoc st;
     isGeneratingTags := isGeneratingTags st |}.

Definition setIsSubmitting (b : bool) (st : state) : state :=
  {| title := title st; content := content st; tags := tags st; newTag := newTag st;
     isSubmitting := b; isLoadingDoc := isLoadingDoc st;
     isGeneratingTags := isGeneratingTags st |}.

(** [isEditing && id], with [id] the route parameter. *)
Definition editing (id : option string) : option string :=
  match id with
  | Some i => if truthy_str i then Some i else None
  | None => None
  end.

Section Page.
Context {J : JSON}.

(** [handleSubmit] up to its [await]. *)
Definition handleSubmit_start (id : option string) (st : state) : started state :=
  if negb (truthy_str (trim (title st))) || negb (truthy_str (trim (content st))) then
    Returned st [Toast "Validation Error" "Title and content are required" true]
  else
    Awaiting (setIsSubmitting true st) []
      (match editing id with
       | Some i => Api.update i (trim (title st)) (trim (content st)) (tags st)
       | None => Api.create (trim (title st)) (trim (content st)) (tags st)
       end).

(** [handleSubmit] from its [await] on. *)
Definition handleSubmit_resume {B} (id : option string) (st : state) (saved : settled B)
  : state * list effect :=
  let '(st1, effects) :=
    try_catch
      (_ ← await saved;
       Normal (st,
               [Toast "Success"
                  (match editing id with
                   | Some _ => "Document updated successfully!"
                   | None => "Document created successfully!"
                   end) false;
                Navigate "/dashboard"]))
      (fun _ =>
         (st,
          [Toast "Error"
             ("Failed to " +:+ (if truthy_opt id then "update" else "create") +:+ " document")
             true])) in
  (setIsSubmitting false st1, effects).

(** [handleAddTag] *)
Definition handleAddTag (st : state) : state :=
  let trimmedTag := toLowerCase (trim (newTag st)) in
  if truthy_str trimmedTag && negb (list_includes (tags st) trimmedTag) then
    setNewTag "" (setTags (tags st ++ [trimmedTag]) st)
  else st.

(** [handleRemoveTag] *)
Definition handleRemoveTag (tagToRemove : string) (st : state) : state :=
  setTags (List.filter (fun tag => negb (String.eqb tag tagToRemove)) (tags st)) st.

Definition setTitle (t : string) (st : state) : state :=
  {| title := t; content := content st; tags := tags st; newTag := newTag st;
     isSubmitting := isSubmitting st; isLoadingDoc := isLoadingDoc st;
     isGeneratingTags := isGeneratingTags st |}.

Definition setContent (c : string) (st : state) : state :=
  {| title := title st; content := c; tags := tags st; newTag := newTag st;
     isSubmitting := isSubmitting st; isLoadingDoc := isLoadingDoc st;
     isGeneratingTags := isGeneratingTags st |}.

Definition setIsLoadingDoc (b : bool) (st : state) : state :=
  {| title := title st; content := content st; tags := tags st; newTag := newTag st;
     isSubmitting := isSubmitting st; isLoadingDoc := b;
     isGeneratingTags := isGeneratingTags st |}.

Definition setIsGeneratingTags (b : bool) (st : state) : state :=
  {| title := title st; content := content st; tags := tags st; newTag := newTag st;
     isSubmitting := isSubmitting st; isLoadingDoc := isLoadingDoc st;
     isGeneratingTags := b |}.

(** The fields [fetchDocument] reads from the body of
    [GET /api/documents/:id]. *)
Record fetched_document : Type := {
  fetched_title : string;
  fetched_content : string;
  fetched_tags : option (list string);
}.

(** [fetchDocument] up to its [await]. *)
Definition fetchDocument_start (docId : string) (st : state) : started state :=
  Awaiting (setIsLoadingDoc true st) [] (Api.getById docId).

(** [fetchDocument] from its [await] on. *)
Definition fetchDocument_resume (st : state) (fetched : settled fetched_document)
  : state * list effect :=
  let '(st1, effects) :=
    try_catch
      (document ← await fetched;
       let st1 := setTitle (fetched_title document) st in
       let st2 := setContent (fetched_content document) st1 in
       Normal (setTags (or_list (fetched_tags document) []) st2, []))
      (fun _ => (st, [Toast "Error" "Failed to fetch document" true; Navigate "/dashboard"])) in
  (setIsLoadingDoc false st1, effects).

(** The mount effect: [if (isEditing && id) fetchDocument(id)], run to its
    end with no other event in between. *)
Definition openDocument (id : option string) (st : state) (fetched : settled fetched_document)
  : state * list effect :=
  match editing id with
  | Some i => fetchDocument_resume (state_of (fetchDocument_start i st)) fetched
  | None => (st, [])
  end.

(** One complete submission with no other event in between. *)
Definition submit {B} (id : option string) (st : state) (saved : settled B)
  : state * list effect :=
  match handleSubmit_start id st with
  | Returned st1 effects => (st1, effects)
  | Awaiting st1 _ _ => handleSubmit_resume id st1 saved
  end.

Definition mockTags : list string := ["ai-generated"; "knowledge"; "documentation"].

(** [handleGenerateTags]: it has no [await], the whole body runs at once. *)
Definition handleGenerateTags (st : state) : state * list effect :=
  if negb (truthy_str (trim (content st))) then
    (st, [Toast "Error" "Please add content before generating tags" true])
  else
    let st0 := setIsGeneratingTags true st in
    let newGeneratedTags :=
      List.filter (fun tag => negb (list_includes (tags st) tag)) mockTags in
    let '(st1, effects) :=
      if Nat.ltb 0 (length newGeneratedTags) then
        (setTags (tags st ++ newGeneratedTags) st0,
         [Toast "Success"
            ("Generated " +:+ toString (Z.of_nat (length newGeneratedTags))
             +:+ " new tags with Gemini AI!") false])
      else
        (st0,
         [Toast "Info" "No new tags to add - document already has relevant tags." false]) in
    (setIsGeneratingTags false st1, effects).

(** The user's edits of the tag list: typing in the tag input, the add
    button, the remove button of a chip, and the generate button. *)
Inductive tag_edit : Type :=
| TypeTag (text : string)
| AddTag
| RemoveTag (tag : string)
| GenerateTags.

Definition edit_tags (st : state) (e : tag_edit) : state :=
  match e with
  | TypeTag text => setNewTag text st
  | AddTag => handleAddTag st
  | RemoveTag tag => handleRemoveTag tag st
  | GenerateTags => (handleGenerateTags st).1
  end.

End Page.

End AddEditDoc.

(** ** pages/Dashboard.tsx: the page state and its handlers *)

Module DashboardPage.
Import Js Ui Async.

Record state : Type := {
  documents : list Dashboard.Document;
  filteredDocuments : list Dashboard.Document;
  searchQuery : string;
  selectedTags : list string;
  allTags : list string;
  isLoading : bool;
}.

Definition setDocuments (l : list Dashboard.Document) (st : state) : state :=
  {| documents := l; filteredDocuments := filteredDocuments st; searchQuery := searchQuery st;
     selectedTags := selectedTags st; allTags := allTags st; isLoading := isLoading st |}.

Definition setFilteredDocuments (l : list Dashboard.Document) (st : state) : state :=
  {| documents := documents st; filteredDocuments := l; searchQuery := searchQuery st;
     selectedTags := selectedTags st; allTags := allTags st; isLoading := isLoading st |}.

Definition setSearchQuery (q : string) (st : state) : state :=
  {| documents := documents st; filteredDocuments := filteredDocuments st; searchQuery := q;
     selectedTags := selectedTags st; allTags := allTags st; isLoading := isLoading st |}.

Definition setSelectedTags (l : list string) (st : state) : state :=
  {| documents := documents st; filteredDocuments := filteredDocuments st;
     searchQuery := searchQuery st; selectedTags := l; allTags := allTags st;
     isLoading := isLoading st |}.

Definition setAllTags (l : list string) (st : state) : state :=
  {| documents := documents st; filteredDocuments := filteredDocuments st;
     searchQuery := searchQuery st; selectedTags := selectedTags st; allTags := l;
     isLoading := isLoading st |}.

Definition setIsLoading (b : bool) (st : state) : state :=
  {| documents := documents st; filteredDocuments := filteredDocuments st;
     searchQuery := searchQuery st; selectedTags := selectedTags st; allTags := allTags st;
     isLoading := b |}.

(** Success body of [GET /api/documents]: [Document[]] or [{documents}]. *)
Inductive listing : Type :=
| Bare (items : list Dashboard.Document)
| Wrapped (inner : list Dashboard.Document).

(** [response.documents || response] *)
Definition listed (r : listing) : list Dashboard.Document :=
  match r with Bare items => items | Wrapped inner => inner end.

(** [tags.add(tag)] on a [Set], kept in insertion order. *)
Definition set_add (tags : list string) (tag : string) : list string :=
  if list_includes tags tag then tags else tags ++ [tag].

(** [Array.from(tags)] after the two nested [forEach] loops. *)
Definition collect_tags (docs : list Dashboard.Document) : list string :=
  fold_left (fun tags doc => fold_left set_add (Dashboard.tags doc) tags) docs [].

(** [fetchDocuments] up to its [await]. *)
Definition fetchDocuments_start (st : state) : started state :=
  Awaiting (setIsLoading true st) [] Api.getAll.

(** [fetchDocuments] from its [await] on. *)
Definition fetchDocuments_resume (st : state) (fetched : settled listing)
  : state * list effect :=
  let '(st1, effects) :=
    try_catch
      (response ← await fetched;
       let st1 := setDocuments (listed response) st in
       Normal (setAllTags (collect_tags (listed response)) st1, []))
      (fun _ => (st, [Toast "Error" "Failed to fetch documents" true])) in
  (setIsLoading false st1, effects).

(** One complete refresh with no other event in between. *)
Definition fetchDocuments (st : state) (fetched : settled listing) : state * list effect :=
  fetchDocuments_resume (state_of (fetchDocuments_start st)) fetched.

(** The effect that re-runs [filterDocuments] when the documents, the query
    or the selection change. *)
Definition filterEffect (st : state) : state :=
  setFilteredDocuments
    (Dashboard.filterDocuments (documents st) (searchQuery st) (selectedTags st)) st.

(** [handleTagSelect] *)
Definition handleTagSelect (tag : string) (st : state) : state :=
  if list_includes (selectedTags st) tag then
    setSelectedTags (List.filter (fun t => negb (String.eqb t tag)) (selectedTags st)) st
  else setSelectedTags (selectedTags st ++ [tag]) st.

(** [clearFilters] *)
Definition clearFilters (st : state) : state :=
  setSelectedTags [] (setSearchQuery "" st).

End DashboardPage.

(** ** components/DocCard.tsx *)

Module DocCard.
Import Js Ui Async.

(** [canEdit], for the [user] of the session store. *)
Definition canEdit (user : value) (doc : Dashboard.Document) : bool :=
  strict_eq_str (prop "role" user) "admin"
  || strict_eq_str (prop "email" user) (Dashboard.author_email (Dashboard.createdBy doc)).

(** [truncateContent(content, maxLength)] *)
Definition truncateContent (content : string) (maxLength : Z) : string :=
  if Z.of_nat (String.length content) >? maxLength
  then substring0 (Z.to_nat maxLength) content +:+ "..."
  else content.

(** The text shown in the card body: the summary when there is one, the
    content otherwise, truncated at the default 150. *)
Definition preview (doc : Dashboard.Document) : string :=
  match Dashboard.summary doc with
  | Some s => if truthy_str s then truncateContent s 150
              else truncateContent (Dashboard.content doc) 150
  | None => truncateContent (Dashboard.content doc) 150
  end.

(** The tag badges: [document.tags.slice(0, 3)] and the count of the
    ["+N more"] badge, shown when there are more than 3 tags. *)
Definition shownTags (doc : Dashboard.Document) : list string :=
  slice0 3 (Dashboard.tags doc).

Definition moreTags (doc : Dashboard.Document) : option nat :=
  if Nat.ltb 3 (length (Dashboard.tags doc)) then Some (length (Dashboard.tags doc) - 3)%nat
  else None.

End DocCard.

(** ** components/Navbar.tsx and the guard of the pages *)

Module Navbar.
Import Js Ui.

Section Bar.
Context {J : JSON}.

(** [handleLogout] *)
Definition handleLogout (ls : gmap string string) (st : Auth.state)
  : gmap string string * Auth.state * list effect :=
  let '(ls1, st1, effects) := Auth.logout ls st in
  (ls1, st1, effects ++ [Navigate "/login"]).

End Bar.

(** The bar is rendered only for an authenticated session. *)
Definition rendered (st : Auth.state) : bool := Auth.isAuthenticated st.

(** [isActive(path)] *)
Definition isActive (pathname path : string) : bool := String.eqb pathname path.

(** The guard every page starts with: the effect
    [if (!loading && !isAuthenticated) navigate('/login')] ... *)
Definition guardEffect (st : Auth.state) : list effect :=
  if negb (Auth.loading st) && negb (Auth.isAuthenticated st) then [Navigate "/login"] else [].

(** ... and the early [return null] when [loading || !isAuthenticated]. *)
Definition pageShown (st : Auth.state) : bool :=
  negb (Auth.loading st || negb (Auth.isAuthenticated st)).

End Navbar.

(** ** The statements of the specification, in its own words *)

Module Spec.
Import Js.

(** [field] contains [query] as a case-insensitive substring: once both are
    put in lower case, the query occurs somewhere in the field. *)
Definition contains_ignoring_case (field query : string) : Prop :=
  exists pre post, toLowerCase field = pre +:+ toLowerCase query +:+ post.

(** Text match: against title OR content OR summary (if present). *)
Definition text_match (query : string) (doc : Dashboard.Document) : Prop :=
  contains_ignoring_case (Dashboard.title doc) query
  \/ contains_ignoring_case (Dashboard.content doc) query
  \/ exists s, Dashboard.summary doc = Some s /\ contains_ignoring_case s query.

(** Tag match: the document contains every selected tag. *)
Definition tag_match (selectedTags : list string) (doc : Dashboard.Document) : Prop :=
  forall tag, In tag selectedTags -> In tag (Dashboard.tags doc).

(** A recent-search list of the data model: at most 5 distinct strings. *)
Definition recent_search_list (l : list string) : Prop :=
  NoDup l /\ (length l <= 5)%nat.

(** A transcript made of question entries each followed by its answer
    entry. *)
Inductive paired : list QA.QAMessage -> Prop :=
| paired_nil : paired []
| paired_cons q a rest :
    QA.type q = QA.question -> QA.type a = QA.answer -> paired rest ->
    paired (q :: a :: rest).

(** What the busy flag promises about the page: at rest the transcript is
    paired; while busy exactly one request is in flight and the transcript is
    a paired one followed by the question being answered. *)
Definition ordered (p : QA.page) : Prop :=
  if QA.isAsking (QA.view p)
  then QA.waiting p = 1%nat
       /\ exists before q,
            QA.messages (QA.view p) = before ++ [q]
            /\ paired before /\ QA.type q = QA.question
  else QA.waiting p = 0%nat /\ paired (QA.messages (QA.view p)).

(** The three conditions of the session invariant. *)
Definition user_present (st : Auth.state) : Prop := Auth.user st <> JNull.

Definition token_present (ls : gmap string string) : Prop :=
  is_Some (Storage.getItem "token" ls).

Definition session_consistent (s : gmap string string * Auth.state) : Prop :=
  (user_present (snd s) <-> token_present (fst s))
  /\ (token_present (fst s) <-> Auth.isAuthenticated (snd s) = true).

(** Whether the login request succeeded: a 2xx response whose body could be
    read. *)
Definition login_data (fetched : settled (Api.response Auth.LoginData Auth.ErrorBody))
  : option Auth.LoginData :=
  match fetched with
  | Fulfilled (Api.Success _ (Fulfilled data)) => Some data
  | _ => None
  end.

End Spec.

(** ** Concrete states and inputs used in the examples *)

Module Examples.
Import Js.

(** The scenario of the specification: "Auth Guide" and "DB Notes". *)
Definition scenario_author : Dashboard.Author :=
  {| Dashboard.author_email := "a@b.c"; Dashboard.author_role := "user" |}.

Definition auth_guide : Dashboard.Document :=
  {| Dashboard._id := "1"; Dashboard.title := "Auth Guide"; Dashboard.content := "How to log in";
     Dashboard.tags := ["auth"; "security"]; Dashboard.summary := None;
     Dashboard.createdBy := scenario_author; Dashboard.createdAt := ""; Dashboard.updatedAt := "" |}.

Definition db_notes : Dashboard.Document :=
  {| Dashboard._id := "2"; Dashboard.title := "DB Notes"; Dashboard.content := "Indexes";
     Dashboard.tags := ["database"]; Dashboard.summary := Some "Schema tips";
     Dashboard.createdBy := scenario_author; Dashboard.createdAt := ""; Dashboard.updatedAt := "" |}.

(** An edit form whose title is blank. *)
Definition blank_title_form : AddEditDoc.state :=
  {| AddEditDoc.title := "   "; AddEditDoc.content := "Body"; AddEditDoc.tags := ["draft"];
     AddEditDoc.newTag := ""; AddEditDoc.isSubmitting := false; AddEditDoc.isLoadingDoc := false;
     AddEditDoc.isGeneratingTags := false |}.

(** A search page with three recent searches, about to search one of them
    again. *)
Definition search_again : Search.state :=
  {| Search.searchQuery := "db"; Search.searchResults := []; Search.isSearching := false;
     Search.searchMode := Search.regular; Search.recentSearches := ["auth"; "db"; "notes"];
     Search.hasSearched := false |}.

(** A Q&A page whose input holds only white space. *)
Definition blank_question : QA.state :=
  {| QA.messages := []; QA.currentQuestion := "   "; QA.isAsking := false |}.

Definition x_is_y : QA.QAResponse :=
  {| QA.response_answer := Some "X is Y"; QA.response_sources := Some ["doc1"] |}.

(** A Q&A page with an empty transcript and a question typed in. *)
Definition what_is_x : QA.state :=
  {| QA.messages := []; QA.currentQuestion := "What is X?"; QA.isAsking := false |}.

(** A storage holding a token, and a call that passes a header of its own. *)
Definition stored_token : gmap string string := {[ "token" := "t0k3n" ]}.

Definition traced_options : Api.RequestInit :=
  {| Api.method := Some "GET"; Api.body := None;
     Api.headers := Some {[ "X-Trace" := "1" ]} |}.

(** Persisted states met at bootstrap. *)
Definition user_only_storage : gmap string string := {[ "user" := "{}" ]}.

Definition token_only_storage : gmap string string := {[ "token" := "abc" ]}.

Definition null_user_storage : gmap string string :=
  <[ "token" := "abc" ]> {[ "user" := "null" ]}.

Definition corrupt_user_storage : gmap string string :=
  <[ "token" := "abc" ]> {[ "user" := "{oops" ]}.

Definition empty_object_storage : gmap string string :=
  <[ "token" := "abc" ]> {[ "user" := "{}" ]}.

Definition alice : Auth.User :=
  {| Auth.id := "u1"; Auth.email := "alice@example.org"; Auth.role := Auth.RoleUser |}.

Definition alice_login : Js.settled (Api.response Auth.LoginData Auth.ErrorBody) :=
  Fulfilled
    (Api.Success "OK" (Fulfilled {| Auth.token := "t0k3n"; Auth.data_user := alice |})).

Definition refused_login : Js.settled (Api.response Auth.LoginData Auth.ErrorBody) :=
  Fulfilled
    (Api.Failure "Unauthorized" (Fulfilled {| Auth.message := Some "Bad password" |})).

(** A call that chooses its own content type, on an empty storage. *)
Definition plain_text_options : Api.RequestInit :=
  {| Api.method := Some "POST"; Api.body := Some "hello";
     Api.headers := Some {[ "Content-Type" := "text/plain" ]} |}.

(** A call as the API objects make them: no [headers] key. *)
Definition list_documents : Api.RequestInit :=
  {| Api.method := None; Api.body := None; Api.headers := None |}.

(** A second codec for concrete runs: JSON without white space, numbers and
    escapes.  It prints every value and reads back strings, arrays, objects
    and the three literals. *)
Fixpoint print_flat (v : value) : string :=
  match v with
  | JNull => "null"
  | JBool true => "true"
  | JBool false => "false"
  | JNum n => toString n
  | JStr s => quote s
  | JArr items => "[" +:+ join "," (map print_flat items) +:+ "]"
  | JObj fields =>
      "{" +:+ join "," (map (fun '(k, x) => quote k +:+ ":" +:+ print_flat x) fields) +:+ "}"
  end.

(** The rest of a string literal after its opening quote, and what follows
    the closing quote. *)
Fixpoint read_string (s : string) : option (string * string) :=
  match s with
  | EmptyString => None
  | String c rest =>
      if Ascii.eqb c (ascii_of_nat 34) then Some (EmptyString, rest)
      else if Ascii.eqb c (ascii_of_nat 92) then None
      else match read_string rest with
           | Some (t, r) => Some (String c t, r)
           | None => None
           end
  end.

Fixpoint drop_str (n : nat) (s : string) : string :=
  match n, s with
  | S n', String _ s' => drop_str n' s'
  | _, _ => s
  end.

Fixpoint read_value (fuel : nat) (s : string) : option (value * string) :=
  match fuel with
  | O => None
  | S fuel' =>
      match s with
      | EmptyString => None
      | String c rest =>
          if Ascii.eqb c (ascii_of_nat 34) then
            match read_string rest with
            | Some (t, r) => Some (JStr t, r)
            | None => None
            end
          else if Ascii.eqb c "[" then
            match rest with
            | String "]" r => Some (JArr [], r)
            | _ => match read_items fuel' rest with
                   | Some (items, r) => Some (JArr items, r)
                   | None => None
                   end
            end
          else if Ascii.eqb c "{" then
            match rest with
            | String "}" r => Some (JObj [], r)
            | _ => match read_fields fuel' rest with
                   | Some (fields, r) => Some (JObj fields, r)
                   | None => None
                   end
            end
          else if startsWith s "null" then Some (JNull, drop_str 4 s)
          else if startsWith s "true" then Some (JBool true, drop_str 4 s)
          else if startsWith s "false" then Some (JBool false, drop_str 5 s)
          else None
      end
  end
with read_items (fuel : nat) (s : string) : option (list value * string) :=
  match fuel with
  | O => None
  | S fuel' =>
      match read_value fuel' s with
      | Some (v, String c r) =>
          if Ascii.eqb c "," then
            match read_items fuel' r with
            | Some (vs, r') => Some (v :: vs, r')
            | None => None
            end
          else if Ascii.eqb c "]" then Some ([v], r)
          else None
      | _ => None
      end
  end
with read_fields (fuel : nat) (s : string) : option (list (string * value) * string) :=
  match fuel with
  | O => None
  | S fuel' =>
      match s with
      | String q rest =>
          if Ascii.eqb q (ascii_of_nat 34) then
            match read_string rest with
            | Some (k, String colon r) =>
                if Ascii.eqb colon ":" then
                  match read_value fuel' r with
                  | Some (v, String c r') =>
                      if Ascii.eqb c "," then
                        match read_fields fuel' r' with
                        | Some (fs, r'') => Some ((k, v) :: fs, r'')
                        | None => None
                        end
                      else if Ascii.eqb c "}" then Some ([(k, v)], r')
                      else None
                  | _ => None
                  end
                else None
            | _ => None
            end
          else None
      | EmptyString => None
      end
  end.

Definition parse_flat (s : string) : option value :=
  match read_value (S (String.length s)) s with
  | Some (v, EmptyString) => Some v
  | _ => None
  end.

Definition flat_json : JSON := {| parse := parse_flat; stringify := print_flat |}.

(** A storage with an unrelated key next to the session keys. *)
Definition themed_storage : gmap string string :=
  <[ "theme" := "dark" ]> (<[ "token" := "old" ]> {[ "user" := "{}" ]}).

(** A dashboard showing the two documents of the scenario, filtered by one
    tag. *)
Definition dashboard_page : DashboardPage.state :=
  {| DashboardPage.documents := [auth_guide; db_notes];
     DashboardPage.filteredDocuments := [db_notes];
     DashboardPage.searchQuery := "";
     DashboardPage.selectedTags := ["database"];
     DashboardPage.allTags := ["auth"; "security"; "database"];
     DashboardPage.isLoading := false |}.

(** A search page whose recent-search list is full, about to search a new
    query. *)
Definition search_new : Search.state :=
  {| Search.searchQuery := "tokens"; Search.searchResults := []; Search.isSearching := false;
     Search.searchMode := Search.semantic;
     Search.recentSearches := ["auth"; "db"; "notes"; "jwt"; "cors"];
     Search.hasSearched := false |}.

(** The Q&A page at rest with an empty transcript. *)
Definition empty_page : QA.page :=
  {| QA.view := {| QA.messages := []; QA.currentQuestion := ""; QA.isAsking := false |};
     QA.waiting := 0 |}.

(** Typing a question, submitting it twice, and the answer arriving. *)
Definition double_submit : list QA.event :=
  [QA.Typed "What is X?"; QA.Submitted 0; QA.Typed "And Y?"; QA.Submitted 5;
   QA.Settled 9 (Fulfilled x_is_y)].

(** An edit form with a tag typed in, and a document as the backend returns
    it. *)
Definition tagging_form : AddEditDoc.state :=
  {| AddEditDoc.title := "Notes"; AddEditDoc.content := "Body"; AddEditDoc.tags := ["draft"];
     AddEditDoc.newTag := "  Knowledge "; AddEditDoc.isSubmitting := false;
     AddEditDoc.isLoadingDoc := false; AddEditDoc.isGeneratingTags := false |}.

Definition stored_document : AddEditDoc.fetched_document :=
  {| AddEditDoc.fetched_title := " Auth Guide"; AddEditDoc.fetched_content := "How to log in ";
     AddEditDoc.fetched_tags := None |}.

End Examples.

(** * Properties *)

Import Js Ui Async.

(** ** Strings *)

Lemma append_nil (s : string) : EmptyString +:+ s = s.
Proof. reflexivity. Qed.

Lemma append_cons (c : ascii) (a b : string) : String c a +:+ b = String c (a +:+ b).
Proof. reflexivity. Qed.

Lemma startsWith_spec (s t : string) :
  startsWith s t = true <-> exists post, s = t +:+ post.
Proof.
  revert s. induction t as [|b t IH]; intros s; simpl.
  - split; [intros _; by exists s | done].
  - setoid_rewrite append_cons. destruct s as [|a s].
    + split; [done | intros [post H]; discriminate].
    + destruct (Ascii.eqb_spec a b) as [->|Hne].
      * rewrite IH. split; intros [post H]; exists post; congruence.
      * split; [done | intros [post H]; congruence].
Qed.

Lemma includes_spec (s t : string) :
  includes s t = true <-> exists pre post, s = pre +:+ t +:+ post.
Proof.
  induction s as [|a s IH]; simpl.
  - rewrite orb_false_r, startsWith_spec. split.
    + intros [post H]. by exists EmptyString, post.
    + intros [[|c pre] [post H]]; [by exists post | discriminate].
  - rewrite orb_true_iff, startsWith_spec, IH. split.
    + intros [[post H] | (pre & post & H)].
      * by exists EmptyString, post.
      * exists (String a pre), post. by rewrite append_cons, H.
    + intros ([|c pre] & post & H).
      * left. by exists post.
      * right. exists pre, post. rewrite append_cons in H. congruence.
Qed.

Lemma includes_empty (s : string) : includes s EmptyString = true.
Proof. apply includes_spec. by exists EmptyString, s. Qed.

(** The one fact about [toLowerCase] the filter relies on: the empty string
    has no letter to lower. *)
Lemma toLowerCase_empty_string : toLowerCase EmptyString = EmptyString.
Proof. reflexivity. Qed.

(** The code's test [field.toLowerCase().includes(query.toLowerCase())] is the
    case-insensitive substring relation. *)
Lemma includes_lower_spec (field query : string) :
  includes (toLowerCase field) (toLowerCase query) = true
  <-> Spec.contains_ignoring_case field query.
Proof. apply includes_spec. Qed.

Lemma list_includes_spec (l : list string) (x : string) :
  list_includes l x = true <-> In x l.
Proof.
  unfold list_includes. rewrite existsb_exists. split.
  - intros (y & Hy & Heq). apply String.eqb_eq in Heq. by subst.
  - intros H. exists x. split; [done | apply String.eqb_refl].
Qed.

Lemma truthy_str_spec (s : string) : truthy_str s = true <-> s <> EmptyString.
Proof. by destruct s. Qed.

Lemma truthy_str_false (s : string) : truthy_str s = false <-> s = EmptyString.
Proof. by destruct s. Qed.

(** ** Dashboard: [filterDocuments] *)

Lemma filter_twice {A} (f g : A -> bool) (l : list A) :
  List.filter g (List.filter f l) = List.filter (fun x => f x && g x) l.
Proof.
  induction l as [|x l IH]; simpl; [done|].
  destruct (f x); simpl; [destruct (g x)|]; by rewrite IH.
Qed.

Lemma filter_all {A} (f : A -> bool) (l : list A) :
  (forall x, f x = true) -> List.filter f l = l.
Proof.
  intros H. induction l as [|x l IH]; simpl; [done|]. by rewrite H, IH.
Qed.

Lemma matches_query_empty (doc : Dashboard.Document) :
  Dashboard.matches_query EmptyString doc = true.
Proof.
  unfold Dashboard.matches_query. rewrite toLowerCase_empty_string.
  by rewrite includes_empty.
Qed.

(** Only a query whose lower-case form is empty occurs in the empty string. *)
Lemma contains_in_empty (query : string) :
  Spec.contains_ignoring_case EmptyString query -> toLowerCase query = EmptyString.
Proof.
  intros (pre & post & H). rewrite toLowerCase_empty_string in H.
  destruct pre as [|c pre]; [|discriminate]. rewrite append_nil in H.
  by destruct (toLowerCase query).
Qed.

Lemma matches_query_spec (query : string) (doc : Dashboard.Document) :
  Dashboard.matches_query query doc = true <-> Spec.text_match query doc.
Proof.
  unfold Dashboard.matches_query, Spec.text_match.
  rewrite !orb_true_iff, !includes_lower_spec. split.
  - intros [[H | H] | H]; [by left | by right; left |].
    destruct (Dashboard.summary doc) as [s|]; [|done].
    apply andb_true_iff in H as [_ H]. apply includes_lower_spec in H.
    right; right. by exists s.
  - intros [H | [H | (s & Hs & H)]]; [by left; left | by left; right |].
    rewrite Hs. destruct s as [|c s].
    + apply contains_in_empty in H. left; left.
      apply includes_lower_spec. rewrite H. apply includes_empty.
    + right. by apply includes_lower_spec.
Qed.

Lemma matches_tags_spec (selectedTags : list string) (doc : Dashboard.Document) :
  Dashboard.matches_tags selectedTags doc = true <-> Spec.tag_match selectedTags doc.
Proof.
  unfold Dashboard.matches_tags, Spec.tag_match. rewrite forallb_forall.
  by setoid_rewrite list_includes_spec.
Qed.

(** C4.  [filterDocuments] keeps, in their original order, exactly the
    documents whose title, content or summary (when present) contains the
    query as a case-insensitive substring (the query in lower case occurs in
    the field in lower case) and whose tags contain every selected tag; with
    an empty query and no selected tag it returns the whole cache. *)
Theorem filterDocuments_exact
    (documents : list Dashboard.Document) (searchQuery : string) (selectedTags : list string) :
  Dashboard.filterDocuments documents searchQuery selectedTags
  = List.filter
      (fun doc => Dashboard.matches_query searchQuery doc
                  && Dashboard.matches_tags selectedTags doc)
      documents
  /\ (forall doc,
        Dashboard.matches_query searchQuery doc && Dashboard.matches_tags selectedTags doc = true
        <-> Spec.text_match searchQuery doc /\ Spec.tag_match selectedTags doc)
  /\ Dashboard.filterDocuments documents EmptyString [] = documents.
Proof.
  split; [|split].
  - unfold Dashboard.filterDocuments.
    destruct searchQuery as [|c q]; destruct selectedTags as [|t sel]; simpl truthy_str;
      simpl length; simpl Nat.ltb; cbv iota.
    + symmetry. apply filter_all. intros doc. by rewrite matches_query_empty.
    + apply filter_ext. intros doc. by rewrite matches_query_empty.
    + apply filter_ext. intros doc. unfold Dashboard.matches_tags. simpl.
      by rewrite andb_true_r.
    + apply filter_twice.
  - intros doc. by rewrite andb_true_iff, matches_query_spec, matches_tags_spec.
  - reflexivity.
Qed.

(** The scenario of the specification: "Auth Guide" and "DB Notes". *)
Example filter_scenario :
  Dashboard.filterDocuments [Examples.auth_guide; Examples.db_notes] "auth" [] = [Examples.auth_guide]
  /\ Dashboard.filterDocuments [Examples.auth_guide; Examples.db_notes] "" ["database"] = [Examples.db_notes]
  /\ Dashboard.filterDocuments [Examples.auth_guide; Examples.db_notes] "" ["auth"; "database"] = []
  /\ Dashboard.filterDocuments [Examples.auth_guide; Examples.db_notes] "SCHEMA" [] = [Examples.db_notes].
Proof. by vm_compute. Qed.

(** ** Edit/create flow: [handleSubmit] and [handleAddTag] *)

Section EditFlow.
Context {J : JSON}.

(** C8.  Submitting with a blank title or a blank content returns before any
    request: the handler reports the validation failure as a toast, issues no
    call, and leaves the whole form state (title, content, tags) as it was. *)
Theorem handleSubmit_validation (id : option string) (st : AddEditDoc.state) :
  trim (AddEditDoc.title st) = EmptyString \/ trim (AddEditDoc.content st) = EmptyString ->
  request_of (AddEditDoc.handleSubmit_start id st) = None
  /\ state_of (AddEditDoc.handleSubmit_start id st) = st
  /\ effects_of (AddEditDoc.handleSubmit_start id st)
     = [Toast "Validation Error" "Title and content are required" true].
Proof.
  intros H. unfold AddEditDoc.handleSubmit_start.
  assert (negb (truthy_str (trim (AddEditDoc.title st)))
          || negb (truthy_str (trim (AddEditDoc.content st))) = true) as ->; [|done].
  apply orb_true_iff. destruct H as [-> | ->]; auto.
Qed.

(** With both fields filled in, the handler does issue a request. *)
Lemma handleSubmit_issues_request (id : option string) (st : AddEditDoc.state) :
  trim (AddEditDoc.title st) <> EmptyString ->
  trim (AddEditDoc.content st) <> EmptyString ->
  exists call, request_of (AddEditDoc.handleSubmit_start id st) = Some call.
Proof.
  intros Ht Hc. unfold AddEditDoc.handleSubmit_start.
  apply truthy_str_spec in Ht, Hc. rewrite Ht, Hc. simpl. eauto.
Qed.

End EditFlow.

Lemma handleSubmit_validation_witness :
  (trim (AddEditDoc.title Examples.blank_title_form) = EmptyString
   \/ trim (AddEditDoc.content Examples.blank_title_form) = EmptyString)
  /\ request_of (@AddEditDoc.handleSubmit_start reference_json None Examples.blank_title_form) = None
  /\ state_of (@AddEditDoc.handleSubmit_start reference_json None Examples.blank_title_form)
     = Examples.blank_title_form
  /\ effects_of (@AddEditDoc.handleSubmit_start reference_json None Examples.blank_title_form)
     = [Toast "Validation Error" "Title and content are required" true].
Proof.
  split; [left; reflexivity|].
  apply (@handleSubmit_validation reference_json None Examples.blank_title_form). left. reflexivity.
Defined.

(** C9.  [handleAddTag] appends the trimmed, lower-cased input exactly when
    it is non-empty and not yet in the list, and leaves the list as it is
    otherwise; entering the same input a second time changes nothing. *)
Theorem handleAddTag_appends_new_only (st : AddEditDoc.state) :
  let tag := toLowerCase (trim (AddEditDoc.newTag st)) in
  AddEditDoc.tags (AddEditDoc.handleAddTag st)
  = (if decide (tag <> EmptyString /\ tag ∉ AddEditDoc.tags st)
     then AddEditDoc.tags st ++ [tag]
     else AddEditDoc.tags st)
  /\ AddEditDoc.tags
       (AddEditDoc.handleAddTag
          (AddEditDoc.setNewTag (AddEditDoc.newTag st) (AddEditDoc.handleAddTag st)))
     = AddEditDoc.tags (AddEditDoc.handleAddTag st).
Proof.
  intros tag.
  assert (forall l, truthy_str tag && negb (list_includes l tag) = true
                    <-> tag <> EmptyString /\ tag ∉ l) as Hcond.
  { intros l. rewrite andb_true_iff, negb_true_iff, truthy_str_spec.
    rewrite list_elem_of_In, <- list_includes_spec, not_true_iff_false. done. }
  unfold AddEditDoc.handleAddTag. fold tag. simpl AddEditDoc.newTag. fold tag.
  destruct (truthy_str tag && negb (list_includes (AddEditDoc.tags st) tag)) eqn:Hc.
  - apply Hcond in Hc as Hc'. rewrite decide_True by done. split; [done|].
    simpl AddEditDoc.tags.
    assert (truthy_str tag && negb (list_includes (AddEditDoc.tags st ++ [tag]) tag) = false)
      as ->; [|done].
    apply not_true_iff_false. rewrite Hcond. intros [_ Hn]. apply Hn.
    apply elem_of_app. right. by apply list_elem_of_singleton.
  - rewrite decide_False; [|by rewrite <- Hcond, Hc].
    split; [done|]. destruct st; simpl in *. by rewrite Hc.
Qed.

(** ** Search: the recent-search list *)

Lemma filter_all_in {A} (f : A -> bool) (l : list A) :
  (forall x, In x l -> f x = true) -> List.filter f l = l.
Proof.
  induction l as [|x l IH]; intros H; simpl; [done|].
  rewrite (H x) by (by left). rewrite IH; [done|]. intros y Hy. apply H. by right.
Qed.

Lemma neq_query_true (s query : string) : negb (String.eqb s query) = true <-> s <> query.
Proof. rewrite negb_true_iff. destruct (String.eqb_spec s query); split; congruence. Qed.

Lemma filter_out_query_not_in (query : string) (l : list string) :
  ~ In query (List.filter (fun s => negb (String.eqb s query)) l).
Proof. rewrite filter_In, neq_query_true. tauto. Qed.

Lemma filter_out_query_length (query : string) (l : list string) :
  NoDup l -> In query l ->
  S (length (List.filter (fun s => negb (String.eqb s query)) l)) = length l.
Proof.
  induction l as [|x l IH]; intros Hnd Hin; [done|].
  apply NoDup_cons in Hnd as [Hx Hnd]. rewrite list_elem_of_In in Hx. simpl.
  destruct (String.eqb_spec x query) as [->|Hne]; simpl.
  - rewrite filter_all_in; [done|].
    intros y Hy. apply neq_query_true. intros ->. contradiction.
  - destruct Hin as [->|Hin]; [done|]. by rewrite IH.
Qed.

Lemma filter_out_query_shorter (query : string) (l : list string) :
  In query l ->
  (S (length (List.filter (fun s => negb (String.eqb s query)) l)) <= length l)%nat.
Proof.
  induction l as [|x l IH]; intros Hin; [done|]. simpl.
  destruct (String.eqb_spec x query) as [->|Hne]; simpl.
  - pose proof (List.filter_length_le (fun s => negb (String.eqb s query)) l). lia.
  - destruct Hin as [->|Hin]; [done|]. specialize (IH Hin). lia.
Qed.

Lemma filter_bool_sublist {A} (f : A -> bool) (l : list A) : List.filter f l `sublist_of` l.
Proof.
  induction l as [|x l IH]; simpl; [done|].
  destruct (f x); [by apply sublist_skip | by apply sublist_cons].
Qed.

(** The computed list, for every prior list: the query comes first and at
    most five entries are kept. *)
Lemma updatedRecent_head_length (query : string) (prior : list string) :
  head (Search.updatedRecent query prior) = Some query
  /\ (length (Search.updatedRecent query prior) <= 5)%nat.
Proof.
  unfold Search.updatedRecent, slice0. split; [done|]. apply firstn_le_length.
Qed.

Lemma updatedRecent_NoDup (query : string) (prior : list string) :
  NoDup prior -> NoDup (Search.updatedRecent query prior).
Proof.
  intros Hnd. unfold Search.updatedRecent, slice0.
  eapply sublist_NoDup; [|apply sublist_take].
  apply NoDup_cons. split.
  - rewrite list_elem_of_In. apply filter_out_query_not_in.
  - eapply sublist_NoDup; [done | apply filter_bool_sublist].
Qed.

Lemma updatedRecent_again (query : string) (prior : list string) :
  NoDup prior -> (length prior <= 5)%nat -> In query prior ->
  Search.updatedRecent query prior
  = query :: List.filter (fun s => negb (String.eqb s query)) prior.
Proof.
  intros Hnd Hlen Hin. unfold Search.updatedRecent, slice0.
  apply firstn_all2. simpl. rewrite filter_out_query_length by done. done.
Qed.

(** Every list reached from the empty one by successive searches is a
    recent-search list of the data model. *)
Lemma recent_searches_reachable (queries : list string) :
  Spec.recent_search_list
    (fold_left (fun recent query => Search.updatedRecent query recent) queries []).
Proof.
  assert (forall l, Spec.recent_search_list l ->
            Spec.recent_search_list
              (fold_left (fun recent query => Search.updatedRecent query recent) queries l))
    as H; [|apply H; split; [constructor | simpl; lia]].
  induction queries as [|q qs IH]; intros l Hl; [done|]. simpl. apply IH.
  destruct Hl as [Hnd _]. split; [by apply updatedRecent_NoDup|].
  apply updatedRecent_head_length.
Qed.

Section SearchPage.
Context {J : JSON}.

Lemma search_success (ls : gmap string string) (st : Search.state) (results : Search.results) :
  trim (Search.searchQuery st) <> EmptyString ->
  let updated := Search.updatedRecent (Search.searchQuery st) (Search.recentSearches st) in
  Search.recentSearches (Search.search ls st (Fulfilled results)).1.2 = updated
  /\ (Search.search ls st (Fulfilled results)).1.1
     = Storage.setItem "recentSearches" (stringify (JArr (map JStr updated))) ls.
Proof.
  intros Hq. unfold Search.search, Search.handleSearch_start.
  apply truthy_str_spec in Hq. rewrite Hq. done.
Qed.

(** C6.  After a successful search with query [q], the updated
    recent-search list has [q] first and at most 5 entries, whatever the prior
    list; it has no duplicate whenever the prior list had none, so that a
    recent-search list (at most 5 distinct strings) is updated to a
    recent-search list, and every list reached from the initial empty list is
    one; when [q] was already listed the list does not grow: [q] is moved to
    the front and the other entries keep their order; and the updated list is
    what is written under [recentSearches]. *)
Theorem search_updates_recent
    (ls : gmap string string) (st : Search.state) (results : Search.results) :
  trim (Search.searchQuery st) <> EmptyString ->
  let query := Search.searchQuery st in
  let prior := Search.recentSearches st in
  let after := Search.search ls st (Fulfilled results) in
  let updated := Search.recentSearches after.1.2 in
  head updated = Some query
  /\ (length updated <= 5)%nat
  /\ (NoDup prior -> NoDup updated)
  /\ (Spec.recent_search_list prior -> Spec.recent_search_list updated)
  /\ (forall queries,
        Spec.recent_search_list
          (fold_left (fun recent q => Search.updatedRecent q recent) queries []))
  /\ updated = take 5 (query :: List.filter (fun s => negb (String.eqb s query)) prior)
  /\ (query ∈ prior -> (length updated <= length prior)%nat)
  /\ (query ∈ prior -> Spec.recent_search_list prior ->
      length updated = length prior
      /\ updated = query :: List.filter (fun s => negb (String.eqb s query)) prior)
  /\ Storage.getItem "recentSearches" after.1.1 = Some (stringify (JArr (map JStr updated))).
Proof.
  intros Hq query prior after updated.
  destruct (search_success ls st results Hq) as [Hupd Hls].
  subst updated after. rewrite Hupd, Hls. fold query prior.
  split; [apply updatedRecent_head_length|].
  split; [apply updatedRecent_head_length|].
  split; [apply updatedRecent_NoDup|].
  split; [intros [Hnd _]; split; [by apply updatedRecent_NoDup | apply updatedRecent_head_length]|].
  split; [apply recent_searches_reachable|].
  split; [done|].
  split; [|split].
  - intros Hin%list_elem_of_In. unfold Search.updatedRecent, slice0.
    rewrite length_take. simpl length.
    pose proof (filter_out_query_shorter query prior Hin). lia.
  - intros Hin%list_elem_of_In [Hnd Hlen]. rewrite updatedRecent_again by done.
    split; [|done]. simpl. by apply filter_out_query_length.
  - unfold Storage.getItem, Storage.setItem. apply lookup_insert_eq.
Qed.

(** A failed search leaves the recent-search list and the storage alone. *)
Lemma search_failure (ls : gmap string string) (st : Search.state) (reason : string) :
  Search.recentSearches (Search.search ls st (Rejected reason)).1.2 = Search.recentSearches st
  /\ (Search.search ls st (Rejected reason)).1.1 = ls.
Proof.
  unfold Search.search, Search.handleSearch_start.
  by destruct (negb (truthy_str (trim (Search.searchQuery st)))).
Qed.

End SearchPage.

Lemma search_updates_recent_witness :
  trim (Search.searchQuery Examples.search_again) <> EmptyString
  /\ Search.recentSearches
       (@Search.search reference_json ∅ Examples.search_again (Fulfilled (Search.Bare []))).1.2
     = ["db"; "auth"; "notes"].
Proof.
  assert (trim (Search.searchQuery Examples.search_again) <> EmptyString) as Hq by done.
  split; [done|].
  destruct (@search_updates_recent reference_json ∅ Examples.search_again (Search.Bare []) Hq)
    as (_ & _ & _ & _ & _ & Hupdated & _).
  exact Hupdated.
Defined.

(** ** Q&A: the transcript *)

Section Transcript.
Context {J : JSON}.

Lemma handleAskQuestion_start_fresh (now : Z) (st : QA.state) :
  truthy_str (trim (QA.currentQuestion st)) && negb (QA.isAsking st) = true ->
  QA.handleAskQuestion_start now st
  = Awaiting
      {| QA.messages := QA.messages st
                        ++ [QA.questionMessage now (trim (QA.currentQuestion st))];
         QA.currentQuestion := EmptyString;
         QA.isAsking := true |}
      [] (Api.askQuestion (trim (QA.currentQuestion st))).
Proof.
  intros [Hq Hb]%andb_true_iff. apply negb_true_iff in Hb.
  unfold QA.handleAskQuestion_start. by rewrite Hq, Hb.
Qed.

Lemma handleAskQuestion_start_rejected (now : Z) (st : QA.state) :
  truthy_str (trim (QA.currentQuestion st)) && negb (QA.isAsking st) = false ->
  QA.handleAskQuestion_start now st = Returned st [].
Proof.
  intros H. unfold QA.handleAskQuestion_start.
  assert (negb (truthy_str (trim (QA.currentQuestion st))) || QA.isAsking st = true) as ->;
    [|done].
  by destruct (truthy_str _), (QA.isAsking st).
Qed.

Lemma handleAskQuestion_resume_messages (now : Z) (st : QA.state) (asked : settled QA.QAResponse) :
  QA.messages (QA.handleAskQuestion_resume now st asked).1
  = QA.messages st
    ++ [match asked with
        | Fulfilled response => QA.answerMessage now response
        | Rejected _ => QA.errorMessage now
        end].
Proof. by destruct asked. Qed.

(** C1, as the code has it.  An ask started with a non-blank question while
    no ask is in flight appends exactly the question entry and then exactly
    one answer entry (the backend's answer, or the fixed fallback without
    sources when the request fails) and releases the busy flag; an ask whose
    question is blank, or which is started while the busy flag is set, issues
    no request and appends nothing.  Issuing a request sets the busy flag. *)
Theorem ask_appends_question_then_answer
    (t1 t2 : Z) (st : QA.state) (asked : settled QA.QAResponse) :
  let accepted := truthy_str (trim (QA.currentQuestion st)) && negb (QA.isAsking st) in
  let asked_entry := QA.questionMessage t1 (trim (QA.currentQuestion st)) in
  let reply_entry :=
    match asked with
    | Fulfilled response => QA.answerMessage t2 response
    | Rejected _ => QA.errorMessage t2
    end in
  QA.messages (QA.ask t1 t2 st asked)
  = (if accepted then QA.messages st ++ [asked_entry; reply_entry] else QA.messages st)
  /\ QA.type asked_entry = QA.question
  /\ QA.type reply_entry = QA.answer
  /\ (QA.content (QA.errorMessage t2)
      = "Sorry, I encountered an error while processing your question. Please try again."
      /\ QA.sources (QA.errorMessage t2) = None)
  /\ request_of (QA.handleAskQuestion_start t1 st)
     = (if accepted then Some (Api.askQuestion (trim (QA.currentQuestion st))) else None)
  /\ QA.isAsking (state_of (QA.handleAskQuestion_start t1 st)) = accepted || QA.isAsking st
  /\ QA.handleAskQuestion_start t2 (QA.setIsAsking true st)
     = Returned (QA.setIsAsking true st) []
  /\ QA.isAsking (QA.ask t1 t2 st asked) = (if accepted then false else QA.isAsking st).
Proof.
  intros accepted asked_entry reply_entry.
  assert (QA.handleAskQuestion_start t2 (QA.setIsAsking true st)
          = Returned (QA.setIsAsking true st) []) as Hbusy.
  { apply handleAskQuestion_start_rejected. simpl. apply andb_false_r. }
  assert (QA.type reply_entry = QA.answer) as Hreply by (by destruct asked).
  unfold QA.ask. destruct accepted eqn:Hacc; subst accepted.
  - rewrite (handleAskQuestion_start_fresh _ _ Hacc).
    rewrite handleAskQuestion_resume_messages. simpl.
    rewrite <- app_assoc. repeat split; try done. by destruct asked.
  - rewrite (handleAskQuestion_start_rejected _ _ Hacc). simpl. repeat split; done.
Qed.

(** C10.  When the request succeeds, the appended entry is an answer whose
    text is the response's [answer], or the fixed apology when that field is
    absent or empty, and whose sources are the response's [sources], or the
    empty list (never absent) when that field is absent. *)
Theorem answer_entry_defaults (now : Z) (st : QA.state) (response : QA.QAResponse) :
  exists entry,
    QA.messages (QA.handleAskQuestion_resume now st (Fulfilled response)).1
    = QA.messages st ++ [entry]
    /\ QA.type entry = QA.answer
    /\ QA.content entry
       = match QA.response_answer response with
         | Some (String c rest) => String c rest
         | Some EmptyString | None =>
             "I apologize, but I couldn't find relevant information to answer your question."
         end
    /\ QA.sources entry
       = Some (match QA.response_sources response with
               | Some listed => listed
               | None => []
               end).
Proof.
  exists (QA.answerMessage now response). repeat split.
  simpl. unfold or_str. by destruct (QA.response_answer response) as [[|c rest]|].
Qed.

Lemma paired_app (l1 l2 : list QA.QAMessage) :
  Spec.paired l1 -> Spec.paired l2 -> Spec.paired (l1 ++ l2).
Proof.
  intros H1 H2. induction H1 as [|q a rest Hq Ha _ IH]; [done|].
  simpl. by constructor.
Qed.

Lemma step_ordered (p : QA.page) (e : QA.event) :
  Spec.ordered p -> Spec.ordered (QA.step p e).
Proof.
  destruct p as [[messages current busy] n]. unfold Spec.ordered. simpl.
  destruct e as [text | now | now asked]; simpl.
  - done.
  - unfold QA.handleAskQuestion_start. simpl.
    destruct busy; [by rewrite orb_true_r|]. rewrite orb_false_r.
    destruct (truthy_str (trim current)); simpl; [|done].
    intros [-> Hp]. split; [done|]. by eexists _, _.
  - destruct busy.
    + intros (-> & before & q & -> & Hp & Hq). cbn [QA.view QA.waiting].
      assert (QA.isAsking (QA.handleAskQuestion_resume now
                {| QA.messages := before ++ [q]; QA.currentQuestion := current;
                   QA.isAsking := true |} asked).1 = false) as -> by (by destruct asked).
      split; [done|]. rewrite handleAskQuestion_resume_messages. cbn [QA.messages].
      rewrite <- app_assoc. apply paired_app; [done|].
      simpl. constructor; [done | by destruct asked | constructor].
    + by intros [-> Hp].
Qed.

(** X18.  The ordering guarantee of the busy flag: from a page at rest with a
    paired transcript, whatever is typed, submitted and settled, at most one
    request is ever in flight, answers follow their questions, and no two
    exchanges interleave. *)
Lemma transcript_ordered (p : QA.page) (events : list QA.event) :
  Spec.ordered p -> Spec.ordered (QA.run p events).
Proof.
  unfold QA.run. revert p.
  induction events as [|e events IH]; intros p Hp; [done|].
  simpl. apply IH. by apply step_ordered.
Qed.

End Transcript.

(** The claim of C1 as written fails for a blank question: the handler
    returns at its guard and the transcript gains no entry. *)
Lemma ask_blank_question_appends_nothing :
  ~ exists asked_entry reply_entry,
      QA.messages (@QA.ask reference_json 0 1 Examples.blank_question (Fulfilled Examples.x_is_y))
      = QA.messages Examples.blank_question ++ [asked_entry; reply_entry].
Proof. intros (q & a & H). vm_compute in H. discriminate. Qed.

(** The scenario of the specification: "What is X?" on an empty transcript. *)
Example ask_scenario :
  map (fun m => (QA.type m, QA.content m, QA.sources m))
    (QA.messages (@QA.ask reference_json 0 1 Examples.what_is_x (Fulfilled Examples.x_is_y)))
  = [(QA.question, "What is X?", None); (QA.answer, "X is Y", Some ["doc1"])].
Proof. by vm_compute. Qed.

(** ** The request wrapper *)

(** Without a [headers] key, the merged headers reach [fetch]. *)
Lemma apiRequest_config_headers_default (ls : gmap string string) (options : Api.RequestInit) :
  Api.headers options = None ->
  Api.headers (Api.apiRequest_config ls options)
  = Some (Api.spread
            {[ "Content-Type" := "application/json" ]}
            (match Api.getAuthToken ls with
             | Some t => if truthy_str t then {[ "Authorization" := "Bearer " +:+ t ]} else ∅
             | None => ∅
             end)).
Proof.
  intros H. unfold Api.apiRequest_config, Api.spread_init. cbn [Api.headers].
  rewrite H. cbn [default]. unfold Api.spread at 1. by rewrite (left_id_L ∅ (∪)).
Qed.

(** With a [headers] key, the outer [...options] replaces the merged headers
    by the caller's. *)
Lemma apiRequest_config_headers_given
    (ls : gmap string string) (options : Api.RequestInit) (given : gmap string string) :
  Api.headers options = Some given ->
  Api.headers (Api.apiRequest_config ls options) = Some given.
Proof. intros H. unfold Api.apiRequest_config, Api.spread_init. simpl. by rewrite H. Qed.

(** C7, as the code has it.  For every stored-token state and every options
    object without a [headers] entry (every call the API objects make), the
    request carries [Content-Type: application/json] and carries
    [Authorization: Bearer <token>] exactly when a non-empty token is stored;
    the method and body are the caller's; and whatever the options, a non-2xx
    response makes the wrapper reject with the response's status text. *)
Theorem apiRequest_contract (B E : Type) (ls : gmap string string) (options : Api.RequestInit)
    (text : string) (error : settled E) :
  Api.headers options = None ->
  (exists sent,
     Api.headers (Api.apiRequest_config ls options) = Some sent
     /\ sent !! "Content-Type" = Some "application/json"
     /\ sent !! "Authorization"
        = match Storage.getItem "token" ls with
          | Some (String c rest) => Some ("Bearer " +:+ String c rest)
          | Some EmptyString | None => None
          end)
  /\ Api.method (Api.apiRequest_config ls options) = Api.method options
  /\ Api.body (Api.apiRequest_config ls options) = Api.body options
  /\ Api.apiRequest_result (Fulfilled (Api.Failure text error))
     = (Rejected ("API Error: " +:+ text) : settled B).
Proof.
  intros H. split; [|repeat split; by destruct options as [[m|] [b|] h]].
  rewrite (apiRequest_config_headers_default _ _ H). eexists. split; [done|].
  unfold Api.spread, Api.getAuthToken.
  destruct (Storage.getItem "token" ls) as [[|c rest]|]; simpl.
  - rewrite (left_id_L ∅ (∪)). by rewrite lookup_singleton_eq, lookup_singleton_ne.
  - split.
    + rewrite lookup_union_r; [apply lookup_singleton_eq | by apply lookup_singleton_ne].
    + rewrite lookup_union_l'; [apply lookup_singleton_eq|].
      rewrite lookup_singleton_eq. eauto.
  - rewrite (left_id_L ∅ (∪)). by rewrite lookup_singleton_eq, lookup_singleton_ne.
Qed.

Lemma apiRequest_contract_witness :
  Api.headers Examples.list_documents = None
  /\ exists sent,
       Api.headers (Api.apiRequest_config Examples.stored_token Examples.list_documents)
       = Some sent
       /\ sent !! "Content-Type" = Some "application/json"
       /\ sent !! "Authorization" = Some "Bearer t0k3n".
Proof.
  split; [reflexivity|].
  destruct (apiRequest_contract unit unit Examples.stored_token Examples.list_documents
              "Not Found" (Rejected "no body") eq_refl) as [(sent & Hs & Hc & Ha) _].
  exists sent. split; [exact Hs|]. split; [exact Hc | exact Ha].
Defined.

(** The claim of C7 as written fails for a call that passes headers: the
    caller's [Content-Type] is the one sent. *)
Lemma apiRequest_content_type_overridden :
  default ∅ (Api.headers (Api.apiRequest_config ∅ Examples.plain_text_options))
    !! "Content-Type"
  = Some "text/plain".
Proof. reflexivity. Qed.

(** With a token stored and a caller header that is neither of the two, the
    request goes out with the caller's header only: the merged defaults are
    replaced, not extended. *)
Lemma apiRequest_caller_headers_drop_defaults :
  let sent :=
    default ∅ (Api.headers (Api.apiRequest_config Examples.stored_token Examples.traced_options)) in
  Api.getAuthToken Examples.stored_token = Some "t0k3n"
  /\ sent = {[ "X-Trace" := "1" ]}
  /\ sent !! "Content-Type" = None
  /\ sent !! "Authorization" = None.
Proof. repeat split; reflexivity. Qed.

(** A network failure rejects with its own reason; a 2xx response settles as
    its body does. *)
Lemma apiRequest_result_cases {B E} (text : string) (body : settled B) (reason : string) :
  Api.apiRequest_result (Fulfilled (Api.Success (E:=E) text body)) = body
  /\ Api.apiRequest_result (Rejected reason : settled (Api.response B E)) = Rejected reason.
Proof. done. Qed.

(** ** The session store *)

Section Session.
Context {J : JSON}.

Lemma bootstrap_no_token (ls : gmap string string) (st : Auth.state) :
  truthy_opt (Storage.getItem "token" ls) = false ->
  Auth.bootstrap ls st = (ls, Auth.setLoading false st).
Proof. intros H. unfold Auth.bootstrap. by rewrite H. Qed.

Lemma bootstrap_parsed (ls : gmap string string) (st : Auth.state) (userData : value) :
  truthy_opt (Storage.getItem "token" ls) = true ->
  parse (or_str (Storage.getItem "user" ls) "{}") = Some userData ->
  Auth.bootstrap ls st = (ls, Auth.setLoading false (Auth.setUser userData st)).
Proof. intros Ht Hp. unfold Auth.bootstrap. by rewrite Ht, Hp. Qed.

Lemma bootstrap_unparsed (ls : gmap string string) (st : Auth.state) :
  truthy_opt (Storage.getItem "token" ls) = true ->
  parse (or_str (Storage.getItem "user" ls) "{}") = None ->
  Auth.bootstrap ls st
  = (Storage.removeItem "user" (Storage.removeItem "token" ls), Auth.setLoading false st).
Proof. intros Ht Hp. unfold Auth.bootstrap. by rewrite Ht, Hp. Qed.

Lemma removed_both (ls : gmap string string) :
  Storage.getItem "token" (Storage.removeItem "user" (Storage.removeItem "token" ls)) = None
  /\ Storage.getItem "user" (Storage.removeItem "user" (Storage.removeItem "token" ls)) = None.
Proof.
  unfold Storage.getItem, Storage.removeItem. split.
  - rewrite lookup_delete_ne by done. apply lookup_delete_eq.
  - apply lookup_delete_eq.
Qed.

(** C2, as the code has it.  When the token key is missing or empty,
    bootstrap leaves the storage as it is and the session ends
    unauthenticated; when the token is present and the user key holds a
    non-empty string that fails to parse as JSON, both persisted keys are
    removed and the session ends unauthenticated. *)
Theorem bootstrap_unauthenticated (ls : gmap string string) :
  truthy_opt (Storage.getItem "token" ls) = false
  \/ (truthy_opt (Storage.getItem "token" ls) = true
      /\ exists text, Storage.getItem "user" ls = Some text
                      /\ text <> EmptyString /\ parse text = None) ->
  let after := Auth.bootstrap ls Auth.initial in
  Auth.user after.2 = JNull
  /\ Auth.isAuthenticated after.2 = false
  /\ Auth.loading after.2 = false
  /\ (if truthy_opt (Storage.getItem "token" ls)
      then Storage.getItem "token" after.1 = None /\ Storage.getItem "user" after.1 = None
      else after.1 = ls)
  /\ (forall key, key <> "token" -> key <> "user" ->
        Storage.getItem key after.1 = Storage.getItem key ls).
Proof.
  intros [Hno | (Ht & text & Hu & Hne & Hp)] after; subst after.
  - rewrite bootstrap_no_token by done. by rewrite Hno.
  - rewrite bootstrap_unparsed; [| done |].
    + rewrite Ht. simpl. repeat split; try apply removed_both.
      intros key Hk1 Hk2. unfold Storage.getItem, Storage.removeItem.
      by rewrite !lookup_delete_ne.
    + rewrite Hu. simpl. apply truthy_str_spec in Hne. by rewrite Hne.
Qed.

Lemma login_success (ls : gmap string string) (st : Auth.state) (text : string)
    (data : Auth.LoginData) :
  Auth.login ls st (Fulfilled (Api.Success text (Fulfilled data)))
  = Normal
      (Storage.setItem "user" (stringify (Auth.json_of_user (Auth.data_user data)))
         (Storage.setItem "token" (Auth.token data) ls),
       Auth.setUser (Auth.json_of_user (Auth.data_user data)) st,
       [Toast "Success" "Logged in successfully!" false], true).
Proof. reflexivity. Qed.

Lemma login_failure (ls : gmap string string) (st : Auth.state)
    (fetched : settled (Api.response Auth.LoginData Auth.ErrorBody)) :
  Spec.login_data fetched = None ->
  exists effects, Auth.login ls st fetched = Normal (ls, st, effects, false).
Proof.
  intros H. destruct fetched as [[text [data|reason] | text [error|reason]] | reason];
    try discriminate; by eexists.
Qed.

Lemma register_unchanged {B} (ls : gmap string string) (st : Auth.state)
    (fetched : settled (Api.response B Auth.ErrorBody)) :
  exists effects result, Auth.register ls st fetched = Normal (ls, st, effects, result).
Proof.
  destruct fetched as [[text body | text [error|reason]] | reason]; by do 2 eexists.
Qed.

(** C5.  [login] never raises.  It returns [true] exactly when the request
    succeeded (a 2xx response with a readable body); the token and the
    serialised user are then persisted and the in-memory user is set, so the
    session is authenticated.  In every other case (network failure, non-2xx
    response, unreadable body) it returns [false] and leaves the storage and
    the in-memory session as they were. *)
Theorem login_contract (ls : gmap string string) (st : Auth.state)
    (fetched : settled (Api.response Auth.LoginData Auth.ErrorBody)) :
  exists ls' st' effects result,
    Auth.login ls st fetched = Normal (ls', st', effects, result)
    /\ match fetched with
       | Fulfilled (Api.Success _ (Fulfilled data)) =>
           result = true
           /\ Storage.getItem "token" ls' = Some (Auth.token data)
           /\ Storage.getItem "user" ls'
              = Some (stringify (Auth.json_of_user (Auth.data_user data)))
           /\ Auth.user st' = Auth.json_of_user (Auth.data_user data)
           /\ Auth.isAuthenticated st' = true
           /\ (forall key, key <> "token" -> key <> "user" ->
                 Storage.getItem key ls' = Storage.getItem key ls)
       | Fulfilled (Api.Success _ (Rejected _))
       | Fulfilled (Api.Failure _ _)
       | Rejected _ =>
           result = false /\ ls' = ls /\ st' = st
       end.
Proof.
  destruct (Spec.login_data fetched) as [data|] eqn:Hd.
  - destruct fetched as [[text [data'|reason] | text error] | reason]; try discriminate.
    injection Hd as ->. rewrite login_success. do 4 eexists. split; [done|].
    unfold Storage.getItem, Storage.setItem. repeat split.
    + rewrite lookup_insert_ne by done. apply lookup_insert_eq.
    + apply lookup_insert_eq.
    + intros key Hk1 Hk2. by rewrite !lookup_insert_ne.
  - destruct (login_failure ls st fetched Hd) as [effects ->].
    exists ls, st, effects, false. split; [done|].
    by destruct fetched as [[text [data'|reason] | text error] | reason].
Qed.

(** Each operation, on a consistent session, leaves a consistent session. *)
Lemma perform_consistent (s : gmap string string * Auth.state) (op : Auth.operation) :
  Spec.session_consistent s -> Spec.session_consistent (Auth.perform s op).
Proof.
  intros Hs. destruct s as [ls st].
  destruct op as [fetched | fetched |]; unfold Auth.perform; cbn [fst snd].
  - destruct (Spec.login_data fetched) as [data|] eqn:Hd.
    + destruct fetched as [[text [data'|reason] | text error] | reason]; try discriminate.
      rewrite login_success. simpl.
      unfold Spec.session_consistent, Spec.user_present, Spec.token_present. simpl.
      unfold Storage.getItem, Storage.setItem.
      rewrite lookup_insert_ne by done. rewrite lookup_insert_eq.
      unfold Auth.isAuthenticated. simpl. split; split; eauto; done.
    + by destruct (login_failure ls st fetched Hd) as [effects ->].
  - by destruct (register_unchanged ls st fetched) as (effects & result & ->).
  - unfold Spec.session_consistent, Spec.user_present, Spec.token_present. simpl.
    destruct (removed_both ls) as [-> _].
    split; split; try done; by intros [? ?].
Qed.

(** C3, as the code has it.  Provided the persisted token is not the empty
    string and the persisted user string, read when a token is there, does not
    parse to a falsy JSON value, after bootstrap and after any further
    sequence of login, register and logout the three conditions "in-memory
    user present", "persisted token present" and "isAuthenticated" are
    equivalent. *)
Theorem session_consistent_invariant (ls : gmap string string) (ops : list Auth.operation) :
  Storage.getItem "token" ls <> Some EmptyString ->
  (forall userData,
     truthy_opt (Storage.getItem "token" ls) = true ->
     parse (or_str (Storage.getItem "user" ls) "{}") = Some userData ->
     truthy userData = true) ->
  Spec.session_consistent (Auth.session_after ls ops).
Proof.
  intros Hnonempty Htruthy. unfold Auth.session_after.
  assert (Spec.session_consistent (Auth.bootstrap ls Auth.initial)) as Hboot.
  { destruct (truthy_opt (Storage.getItem "token" ls)) eqn:Ht.
    - destruct (parse (or_str (Storage.getItem "user" ls) "{}")) as [userData|] eqn:Hp.
      + rewrite (bootstrap_parsed _ _ _ Ht Hp).
        specialize (Htruthy userData eq_refl eq_refl).
        unfold Spec.session_consistent, Spec.user_present, Spec.token_present,
          Auth.isAuthenticated. simpl.
        destruct (Storage.getItem "token" ls) as [token|]; [|discriminate].
        split; split; eauto. intros _ ->. discriminate.
      + rewrite (bootstrap_unparsed _ _ Ht Hp).
        unfold Spec.session_consistent, Spec.user_present, Spec.token_present. simpl.
        destruct (removed_both ls) as [-> _].
        split; split; try done; by intros [? ?].
    - rewrite (bootstrap_no_token _ _ Ht).
      unfold Spec.session_consistent, Spec.user_present, Spec.token_present. simpl.
      destruct (Storage.getItem "token" ls) as [[|c rest]|]; [done | done |].
      split; split; try done; by intros [? ?]. }
  revert Hboot. generalize (Auth.bootstrap ls Auth.initial).
  induction ops as [|op ops IH]; intros s Hs; [done|].
  simpl. apply IH. by apply perform_consistent.
Qed.

End Session.

(** The claim of C2 as written fails when only one key is missing.  With no
    token the user key is left in place; with a token and no user key the
    default ["{}"] is parsed, nothing is removed and the session starts
    authenticated. *)
Lemma bootstrap_missing_key_not_cleared :
  (Storage.getItem "token" Examples.user_only_storage = None
   /\ Storage.getItem "user"
        (@Auth.bootstrap reference_json Examples.user_only_storage Auth.initial).1
      = Some "{}")
  /\ (Storage.getItem "user" Examples.token_only_storage = None
      /\ Storage.getItem "token"
           (@Auth.bootstrap reference_json Examples.token_only_storage Auth.initial).1
         = Some "abc"
      /\ Auth.isAuthenticated
           (@Auth.bootstrap reference_json Examples.token_only_storage Auth.initial).2
         = true).
Proof. repeat split; reflexivity. Qed.

Lemma bootstrap_unauthenticated_witness :
  (truthy_opt (Storage.getItem "token" Examples.corrupt_user_storage) = true
   /\ Storage.getItem "user" Examples.corrupt_user_storage = Some "{oops"
   /\ @parse reference_json "{oops" = None)
  /\ Storage.getItem "token"
       (@Auth.bootstrap reference_json Examples.corrupt_user_storage Auth.initial).1 = None
  /\ Storage.getItem "user"
       (@Auth.bootstrap reference_json Examples.corrupt_user_storage Auth.initial).1 = None
  /\ Auth.isAuthenticated
       (@Auth.bootstrap reference_json Examples.corrupt_user_storage Auth.initial).2 = false.
Proof.
  split; [repeat split; reflexivity|].
  destruct (@bootstrap_unauthenticated reference_json Examples.corrupt_user_storage)
    as (_ & Hauth & _ & Hkeys & _).
  - right. split; [reflexivity|]. exists "{oops".
    split; [reflexivity|]. split; [discriminate | reflexivity].
  - split; [apply Hkeys|]. split; [apply Hkeys | apply Hauth].
Defined.

(** The claim of C3 as written fails at bootstrap when the persisted user
    string is the JSON literal [null]: the token stays persisted while the
    in-memory user is absent and the session is unauthenticated. *)
Lemma bootstrap_null_user_inconsistent :
  Spec.token_present (@Auth.session_after reference_json Examples.null_user_storage []).1
  /\ Auth.user (@Auth.session_after reference_json Examples.null_user_storage []).2 = JNull
  /\ Auth.isAuthenticated (@Auth.session_after reference_json Examples.null_user_storage []).2
     = false
  /\ ~ Spec.session_consistent
         (@Auth.session_after reference_json Examples.null_user_storage []).
Proof.
  assert (Spec.token_present
            (@Auth.session_after reference_json Examples.null_user_storage []).1) as Ht.
  { by exists "abc". }
  repeat split; try done.
  intros [_ [Hauth _]]. specialize (Hauth Ht). vm_compute in Hauth. discriminate.
Qed.

Lemma session_consistent_invariant_witness :
  Storage.getItem "token" Examples.empty_object_storage <> Some EmptyString
  /\ Spec.session_consistent
       (@Auth.session_after reference_json Examples.empty_object_storage
          [Auth.Login Examples.refused_login; Auth.Logout; Auth.Login Examples.alice_login;
           Auth.Register (Rejected "offline")]).
Proof.
  split; [discriminate|].
  apply (@session_consistent_invariant reference_json Examples.empty_object_storage).
  - discriminate.
  - intros userData _ Hp. vm_compute in Hp. injection Hp as <-. reflexivity.
Defined.

(** A login, then a logout, on an empty storage. *)
Example login_logout_scenario :
  let logged_in := @Auth.session_after reference_json ∅ [Auth.Login Examples.alice_login] in
  let logged_out :=
    @Auth.session_after reference_json ∅ [Auth.Login Examples.alice_login; Auth.Logout] in
  Storage.getItem "token" logged_in.1 = Some "t0k3n"
  /\ Auth.isAuthenticated logged_in.2 = true
  /\ Storage.getItem "token" logged_out.1 = None
  /\ Storage.getItem "user" logged_out.1 = None
  /\ Auth.isAuthenticated logged_out.2 = false.
Proof. repeat split; reflexivity. Qed.

Example flat_json_round_trip :
  @parse Examples.flat_json
    (@stringify Examples.flat_json (Auth.json_of_user Examples.alice))
  = Some (Auth.json_of_user Examples.alice)
  /\ @parse Examples.flat_json (@stringify Examples.flat_json (JArr (map JStr ["db"; "auth"])))
     = Some (JArr (map JStr ["db"; "auth"]))
  /\ @parse Examples.flat_json "{oops" = None.
Proof. repeat split; by vm_compute. Qed.

(** ** Further properties of the session store *)

Section SessionMore.
Context {J : JSON}.

(** X1.  [register] never raises and never touches the storage or the in-memory
    session.  It returns [true] exactly when the response has a 2xx status:
    unlike [login] it does not read the success body, so an unreadable body
    does not turn the result into [false].  Every outcome shows one toast. *)
Theorem register_contract {B} (ls : gmap string string) (st : Auth.state)
    (fetched : settled (Api.response B Auth.ErrorBody)) :
  exists effects result,
    Auth.register ls st fetched = Normal (ls, st, effects, result)
    /\ result = match fetched with
                | Fulfilled (Api.Success _ _) => true
                | Fulfilled (Api.Failure _ _) | Rejected _ => false
                end
    /\ length effects = 1%nat.
Proof.
  destruct fetched as [[text body | text [error|reason]] | reason]; by do 2 eexists.
Qed.

Lemma removed_both_again (ls : gmap string string) :
  Storage.removeItem "user"
    (Storage.removeItem "token" (Storage.removeItem "user" (Storage.removeItem "token" ls)))
  = Storage.removeItem "user" (Storage.removeItem "token" ls).
Proof.
  unfold Storage.removeItem. apply map_eq. intros key.
  destruct (decide (key = "user")) as [->|Hu]; [by rewrite !lookup_delete_eq|].
  rewrite !(lookup_delete_ne _ "user") by done.
  destruct (decide (key = "token")) as [->|Ht]; [by rewrite !lookup_delete_eq|].
  by rewrite !lookup_delete_ne.
Qed.

(** X2.  [logout] from any prior state: both persisted keys are gone, the user is
    absent and the session unauthenticated, every other key of the storage
    and the loading flag are as before, and a second logout changes nothing
    more. *)
Theorem logout_clears (ls : gmap string string) (st : Auth.state) :
  let after := (Auth.logout ls st).1 in
  Storage.getItem "token" after.1 = None
  /\ Storage.getItem "user" after.1 = None
  /\ Auth.user after.2 = JNull
  /\ Auth.isAuthenticated after.2 = false
  /\ Auth.loading after.2 = Auth.loading st
  /\ (forall key, key <> "token" -> key <> "user" ->
        Storage.getItem key after.1 = Storage.getItem key ls)
  /\ (Auth.logout after.1 after.2).1 = after.
Proof.
  simpl. destruct (removed_both ls) as [Ht Hu]. repeat split; try done.
  - intros key Hk1 Hk2. unfold Storage.getItem, Storage.removeItem.
    by rewrite !lookup_delete_ne.
  - unfold Auth.logout. simpl. by rewrite removed_both_again.
Qed.

(** X3.  A session persisted by a successful login is restored by the next
    bootstrap: started on the storage the login left, with a fresh provider
    state, bootstrap leaves the storage as it is and ends with the same user,
    authenticated.  This needs a non-empty token, and a user whose
    serialisation is non-empty and parses back to it. *)
Theorem session_survives_reload (ls : gmap string string) (st : Auth.state) (text : string)
    (data : Auth.LoginData) :
  Auth.token data <> EmptyString ->
  stringify (Auth.json_of_user (Auth.data_user data)) <> EmptyString ->
  parse (stringify (Auth.json_of_user (Auth.data_user data)))
  = Some (Auth.json_of_user (Auth.data_user data)) ->
  let logged_in :=
    Auth.perform (ls, st) (Auth.Login (Fulfilled (Api.Success text (Fulfilled data)))) in
  let reloaded := Auth.bootstrap logged_in.1 Auth.initial in
  reloaded.1 = logged_in.1
  /\ Auth.user reloaded.2 = Auth.user logged_in.2
  /\ Auth.user reloaded.2 = Auth.json_of_user (Auth.data_user data)
  /\ Auth.isAuthenticated reloaded.2 = true
  /\ Auth.loading reloaded.2 = false.
Proof.
  intros Htoken Hnonempty Hparse logged_in reloaded. subst reloaded logged_in.
  unfold Auth.perform. cbn [fst snd]. rewrite login_success. cbn [Auth.settle fst snd].
  erewrite bootstrap_parsed; [done | |].
  - unfold Storage.getItem, Storage.setItem.
    rewrite lookup_insert_ne by done. rewrite lookup_insert_eq. simpl.
    by apply truthy_str_spec.
  - unfold Storage.getItem, Storage.setItem. rewrite lookup_insert_eq. simpl.
    apply truthy_str_spec in Hnonempty. by rewrite Hnonempty.
Qed.

Lemma authorization_sent (ls : gmap string string) (options : Api.RequestInit) :
  Api.headers options = None ->
  default ∅ (Api.headers (Api.apiRequest_config ls options)) !! "Authorization"
  = match Storage.getItem "token" ls with
    | Some (String c rest) => Some ("Bearer " +:+ String c rest)
    | Some EmptyString | None => None
    end.
Proof.
  intros H. rewrite (apiRequest_config_headers_default _ _ H). cbn [default].
  unfold Api.spread, Api.getAuthToken.
  destruct (Storage.getItem "token" ls) as [[|c rest]|]; simpl.
  - rewrite (left_id_L ∅ (∪)). by apply lookup_singleton_ne.
  - rewrite lookup_union_l'; [apply lookup_singleton_eq|].
    rewrite lookup_singleton_eq. eauto.
  - rewrite (left_id_L ∅ (∪)). by apply lookup_singleton_ne.
Qed.

(** X4.  The bearer token follows the session.  For a call without headers of its
    own, a request built after a successful login carries the token that
    login returned, whatever token was stored before; a request built after
    the navigation bar's logout carries no [Authorization] header. *)
Theorem bearer_follows_session (ls : gmap string string) (st : Auth.state)
    (options : Api.RequestInit) (text : string) (data : Auth.LoginData) :
  Api.headers options = None ->
  Auth.token data <> EmptyString ->
  let logged_in :=
    Auth.perform (ls, st) (Auth.Login (Fulfilled (Api.Success text (Fulfilled data)))) in
  let logged_out := (Navbar.handleLogout ls st).1 in
  default ∅ (Api.headers (Api.apiRequest_config logged_in.1 options)) !! "Authorization"
  = Some ("Bearer " +:+ Auth.token data)
  /\ default ∅ (Api.headers (Api.apiRequest_config logged_out.1 options)) !! "Authorization"
     = None
  /\ (Navbar.handleLogout ls st).2
     = [Toast "Logged out" "See you next time!" false; Navigate "/login"].
Proof.
  intros Hh Htoken logged_in logged_out. subst logged_in logged_out.
  rewrite !authorization_sent by done. split; [|split; [|done]].
  - unfold Auth.perform. cbn [fst snd]. rewrite login_success. cbn [Auth.settle fst snd].
    unfold Storage.getItem, Storage.setItem.
    rewrite lookup_insert_ne by done. rewrite lookup_insert_eq.
    by destruct (Auth.token data).
  - unfold Navbar.handleLogout. simpl. by destruct (removed_both ls) as [-> _].
Qed.

Lemma bootstrap_loaded (ls : gmap string string) (st : Auth.state) :
  Auth.loading (Auth.bootstrap ls st).2 = false.
Proof.
  unfold Auth.bootstrap.
  destruct (truthy_opt (Storage.getItem "token" ls)); [|done].
  by destruct (parse (or_str (Storage.getItem "user" ls) "{}")).
Qed.

(** X5.  The guard of the pages.  Before bootstrap has run a page shows nothing
    and does not redirect; once it has run, whatever the storage held, the
    page either shows its content (exactly when the session is authenticated,
    and then the navigation bar is rendered too) or redirects to [/login],
    never both and never neither. *)
Theorem guard_after_bootstrap (ls : gmap string string) :
  let st := (Auth.bootstrap ls Auth.initial).2 in
  Navbar.pageShown Auth.initial = false
  /\ Navbar.guardEffect Auth.initial = []
  /\ Navbar.pageShown st = Auth.isAuthenticated st
  /\ Navbar.rendered st = Auth.isAuthenticated st
  /\ Navbar.guardEffect st = (if Auth.isAuthenticated st then [] else [Navigate "/login"]).
Proof.
  intros st. pose proof (bootstrap_loaded ls Auth.initial) as Hl. fold st in Hl.
  unfold Navbar.pageShown, Navbar.guardEffect, Navbar.rendered. rewrite Hl. simpl.
  by destruct (Auth.isAuthenticated st).
Qed.

End SessionMore.

Lemma session_survives_reload_witness :
  Auth.token {| Auth.token := "t0k3n"; Auth.data_user := Examples.alice |} <> EmptyString
  /\ Auth.user
       (@Auth.bootstrap Examples.flat_json
          (@Auth.perform Examples.flat_json (Examples.themed_storage, Auth.initial)
             (Auth.Login Examples.alice_login)).1
          Auth.initial).2
     = Auth.json_of_user Examples.alice.
Proof.
  split; [discriminate|].
  apply (@session_survives_reload Examples.flat_json Examples.themed_storage Auth.initial "OK"
           {| Auth.token := "t0k3n"; Auth.data_user := Examples.alice |}).
  - discriminate.
  - by vm_compute.
  - by vm_compute.
Defined.

Lemma bearer_follows_session_witness :
  Api.headers Examples.list_documents = None
  /\ default ∅
       (Api.headers
          (Api.apiRequest_config
             (@Auth.perform reference_json (Examples.themed_storage, Auth.initial)
                (Auth.Login Examples.alice_login)).1
             Examples.list_documents))
     !! "Authorization"
     = Some "Bearer t0k3n".
Proof.
  split; [reflexivity|].
  apply (@bearer_follows_session reference_json Examples.themed_storage Auth.initial
           Examples.list_documents "OK"
           {| Auth.token := "t0k3n"; Auth.data_user := Examples.alice |});
    [reflexivity | discriminate].
Defined.

(** ** Further properties of the dashboard *)

Lemma set_add_elem (tags : list string) (tag x : string) :
  x ∈ DashboardPage.set_add tags tag <-> x ∈ tags \/ x = tag.
Proof.
  unfold DashboardPage.set_add. destruct (list_includes tags tag) eqn:Hin.
  - apply list_includes_spec, list_elem_of_In in Hin. split; [by left|].
    intros [H | ->]; done.
  - rewrite elem_of_app, list_elem_of_singleton. done.
Qed.

Lemma set_add_NoDup (tags : list string) (tag : string) :
  NoDup tags -> NoDup (DashboardPage.set_add tags tag).
Proof.
  intros Hnd. unfold DashboardPage.set_add. destruct (list_includes tags tag) eqn:Hin; [done|].
  apply NoDup_app. split; [done|]. split; [|apply NoDup_singleton].
  intros x Hx ->%list_elem_of_singleton.
  apply list_elem_of_In, list_includes_spec in Hx. congruence.
Qed.

Lemma fold_set_add (more tags : list string) :
  (NoDup tags -> NoDup (fold_left DashboardPage.set_add more tags))
  /\ (forall x, x ∈ fold_left DashboardPage.set_add more tags <-> x ∈ tags \/ x ∈ more).
Proof.
  revert tags. induction more as [|tag more IH]; intros tags; simpl.
  - split; [done|]. intros x. rewrite elem_of_nil. tauto.
  - destruct (IH (DashboardPage.set_add tags tag)) as [IHnd IHin]. split.
    + intros Hnd. by apply IHnd, set_add_NoDup.
    + intros x. rewrite IHin, set_add_elem, elem_of_cons. tauto.
Qed.

Lemma fold_collect (docs : list Dashboard.Document) (tags : list string) :
  let collected :=
    fold_left (fun tags doc => fold_left DashboardPage.set_add (Dashboard.tags doc) tags)
      docs tags in
  (NoDup tags -> NoDup collected)
  /\ (forall x, x ∈ collected
                <-> x ∈ tags \/ exists doc, doc ∈ docs /\ x ∈ Dashboard.tags doc).
Proof.
  revert tags. induction docs as [|doc docs IH]; intros tags; simpl.
  - split; [done|]. intros x. split; [by left|].
    intros [H | (doc & Hd & _)]; [done | by apply elem_of_nil in Hd].
  - destruct (IH (fold_left DashboardPage.set_add (Dashboard.tags doc) tags)) as [IHnd IHin].
    destruct (fold_set_add (Dashboard.tags doc) tags) as [Hnd Hin]. split.
    + intros H. by apply IHnd, Hnd.
    + intros x. rewrite IHin, Hin. split.
      * intros [[H | H] | (d & Hd & Hx)]; [by left | |].
        -- right. exists doc. split; [by left | done].
        -- right. exists d. split; [by right | done].
      * intros [H | (d & Hd & Hx)]; [by left; left|].
        apply elem_of_cons in Hd as [-> | Hd]; [by left; right|].
        right. by exists d.
Qed.

(** X6.  A refresh of the dashboard.  When the request succeeds the cache is
    replaced by the fetched list (bare or wrapped in [documents]) and the tag
    filter offers every tag that occurs in some fetched document, each once;
    when it fails, the cache, the tag list, the query and the selection stay
    as they were and one error toast is shown.  Either way the loading flag
    ends cleared. *)
Theorem fetchDocuments_refresh (st : DashboardPage.state)
    (fetched : settled DashboardPage.listing) :
  let after := (DashboardPage.fetchDocuments st fetched).1 in
  DashboardPage.isLoading after = false
  /\ match fetched with
     | Fulfilled response =>
         DashboardPage.documents after = DashboardPage.listed response
         /\ NoDup (DashboardPage.allTags after)
         /\ (forall tag,
               tag ∈ DashboardPage.allTags after
               <-> exists doc, doc ∈ DashboardPage.listed response
                               /\ tag ∈ Dashboard.tags doc)
         /\ (DashboardPage.fetchDocuments st fetched).2 = []
     | Rejected _ =>
         after = DashboardPage.setIsLoading false st
         /\ (DashboardPage.fetchDocuments st fetched).2
            = [Toast "Error" "Failed to fetch documents" true]
     end.
Proof.
  destruct fetched as [response | reason]; simpl.
  - split; [done|]. split; [done|].
    destruct (fold_collect (DashboardPage.listed response) []) as [Hnd Hin].
    split; [apply Hnd; constructor|]. split; [|done].
    intros tag. unfold DashboardPage.collect_tags. rewrite Hin, elem_of_nil. tauto.
  - by destruct st.
Qed.

Lemma filterDocuments_as_filter
    (documents : list Dashboard.Document) (searchQuery : string) (selectedTags : list string) :
  Dashboard.filterDocuments documents searchQuery selectedTags
  = List.filter
      (fun doc => Dashboard.matches_query searchQuery doc
                  && Dashboard.matches_tags selectedTags doc)
      documents.
Proof.
  unfold Dashboard.filterDocuments.
  destruct searchQuery as [|c q]; destruct selectedTags as [|t sel]; simpl truthy_str;
    simpl length; simpl Nat.ltb; cbv iota.
  - symmetry. apply filter_all. intros doc. by rewrite matches_query_empty.
  - apply filter_ext. intros doc. by rewrite matches_query_empty.
  - apply filter_ext. intros doc. unfold Dashboard.matches_tags. simpl.
    by rewrite andb_true_r.
  - apply filter_twice.
Qed.

Lemma filter_sublist_impl {A} (f g : A -> bool) (l : list A) :
  (forall x, f x = true -> g x = true) -> List.filter f l `sublist_of` List.filter g l.
Proof.
  intros H. induction l as [|x l IH]; simpl; [done|].
  destruct (f x) eqn:Hf.
  - rewrite (H x Hf). by apply sublist_skip.
  - destruct (g x); [by apply sublist_cons | done].
Qed.

Lemma filter_same {A} (f : A -> bool) (l : list A) :
  List.filter f (List.filter f l) = List.filter f l.
Proof.
  rewrite filter_twice. apply filter_ext. intros x. by destruct (f x).
Qed.

(** X7.  Filtering works document by document: the result is a sublist of the
    cache (nothing is added, duplicated or reordered), the result of a
    concatenation is the concatenation of the results, and filtering the
    result again with the same query and selection changes nothing. *)
Theorem filterDocuments_stable
    (docs more : list Dashboard.Document) (searchQuery : string) (selectedTags : list string) :
  Dashboard.filterDocuments docs searchQuery selectedTags `sublist_of` docs
  /\ Dashboard.filterDocuments (docs ++ more) searchQuery selectedTags
     = Dashboard.filterDocuments docs searchQuery selectedTags
       ++ Dashboard.filterDocuments more searchQuery selectedTags
  /\ Dashboard.filterDocuments
       (Dashboard.filterDocuments docs searchQuery selectedTags) searchQuery selectedTags
     = Dashboard.filterDocuments docs searchQuery selectedTags.
Proof.
  rewrite !filterDocuments_as_filter. split; [apply filter_bool_sublist|].
  split; [apply List.filter_app | apply filter_same].
Qed.

Lemma matches_tags_subset (narrow wide : list string) (doc : Dashboard.Document) :
  (forall tag, In tag narrow -> In tag wide) ->
  Dashboard.matches_tags wide doc = true -> Dashboard.matches_tags narrow doc = true.
Proof. rewrite !matches_tags_spec. unfold Spec.tag_match. auto. Qed.

(** X8.  [handleTagSelect] toggles one tag of the selection: the tag is selected
    afterwards exactly when it was not before, every other tag keeps its
    status, and a selection without duplicates stays without duplicates.
    Selecting a tag narrows the filtered list (the new result is a sublist of
    the old one), and deselecting a tag widens it. *)
Theorem handleTagSelect_toggles (tag : string) (st : DashboardPage.state) :
  let before := DashboardPage.selectedTags st in
  let after := DashboardPage.selectedTags (DashboardPage.handleTagSelect tag st) in
  let shown selection :=
    Dashboard.filterDocuments (DashboardPage.documents st) (DashboardPage.searchQuery st)
      selection in
  (tag ∈ after <-> tag ∉ before)
  /\ (forall other, other <> tag -> (other ∈ after <-> other ∈ before))
  /\ (NoDup before -> NoDup after)
  /\ (if list_includes before tag
      then shown before `sublist_of` shown after
      else shown after `sublist_of` shown before).
Proof.
  intros before after shown. subst after. unfold DashboardPage.handleTagSelect. fold before.
  destruct (list_includes before tag) eqn:Hin; simpl.
  - apply list_includes_spec in Hin as Hin'.
    split; [|split; [|split]].
    + rewrite !list_elem_of_In. split; [intros H; by apply filter_out_query_not_in in H | done].
    + intros other Hne. rewrite !list_elem_of_In, filter_In, neq_query_true. tauto.
    + intros Hnd. eapply sublist_NoDup; [done | apply filter_bool_sublist].
    + subst shown. simpl. rewrite !filterDocuments_as_filter. apply filter_sublist_impl.
      intros doc [Hq Ht]%andb_true_iff. rewrite Hq. simpl.
      eapply matches_tags_subset; [|done]. intros t Ht'. apply filter_In in Ht'. tauto.
  - assert (~ In tag before) as Hnot.
    { intros H. apply list_includes_spec in H. congruence. }
    split; [|split; [|split]].
    + rewrite elem_of_app, list_elem_of_singleton, list_elem_of_In. tauto.
    + intros other Hne. rewrite elem_of_app, list_elem_of_singleton. tauto.
    + intros Hnd. apply NoDup_app. split; [done|]. split; [|apply NoDup_singleton].
      intros x Hx ->%list_elem_of_singleton. by apply list_elem_of_In in Hx.
    + subst shown. simpl. rewrite !filterDocuments_as_filter. apply filter_sublist_impl.
      intros doc [Hq Ht]%andb_true_iff. rewrite Hq. simpl.
      eapply matches_tags_subset; [|done]. intros t Ht'. apply in_or_app. by left.
Qed.

(** X9.  Selecting a tag that was not selected and clicking it again restores the
    page state. *)
Theorem handleTagSelect_undo (tag : string) (st : DashboardPage.state) :
  tag ∉ DashboardPage.selectedTags st ->
  DashboardPage.handleTagSelect tag (DashboardPage.handleTagSelect tag st) = st.
Proof.
  intros Hnot. rewrite list_elem_of_In, <- list_includes_spec in Hnot.
  apply not_true_is_false in Hnot.
  unfold DashboardPage.handleTagSelect at 2. rewrite Hnot.
  unfold DashboardPage.handleTagSelect. simpl.
  assert (list_includes (DashboardPage.selectedTags st ++ [tag]) tag = true) as ->.
  { apply list_includes_spec, in_or_app. right. by left. }
  rewrite List.filter_app. simpl. rewrite String.eqb_refl. simpl. rewrite app_nil_r.
  rewrite filter_all_in; [by destruct st|].
  intros x Hx. apply neq_query_true. intros ->.
  apply list_includes_spec in Hx. congruence.
Qed.

Lemma handleTagSelect_undo_witness :
  ("auth" ∉ DashboardPage.selectedTags Examples.dashboard_page)
  /\ DashboardPage.handleTagSelect "auth"
       (DashboardPage.handleTagSelect "auth" Examples.dashboard_page)
     = Examples.dashboard_page.
Proof.
  assert ("auth" ∉ DashboardPage.selectedTags Examples.dashboard_page) as H.
  { apply (bool_decide_unpack _). by vm_compute. }
  split; [exact H|]. exact (handleTagSelect_undo "auth" Examples.dashboard_page H).
Defined.

(** ** Further properties of the search page *)

Lemma strings_of_strings (l : list string) : Search.strings_of (JArr (map JStr l)) = Some l.
Proof. simpl. induction l as [|s l IH]; simpl; [done | by rewrite IH]. Qed.

Lemma take_filter_out (n : nat) (query : string) (l : list string) :
  List.filter (fun s => negb (String.eqb s query))
    (take n (List.filter (fun s => negb (String.eqb s query)) l))
  = take n (List.filter (fun s => negb (String.eqb s query)) l).
Proof.
  apply filter_all_in. intros x Hx.
  assert (In x (List.filter (fun s => negb (String.eqb s query)) l)) as H.
  { apply list_elem_of_In. eapply elem_of_sublist; [|apply sublist_take].
    by apply list_elem_of_In. }
  apply filter_In in H. tauto.
Qed.

Lemma updatedRecent_twice (query : string) (prior : list string) :
  Search.updatedRecent query (Search.updatedRecent query prior)
  = Search.updatedRecent query prior.
Proof.
  unfold Search.updatedRecent, slice0. simpl.
  rewrite String.eqb_refl. simpl. rewrite take_filter_out.
  f_equal. apply take_take.
Qed.

Lemma front_permutation (query : string) (l : list string) :
  NoDup l -> In query l ->
  query :: List.filter (fun s => negb (String.eqb s query)) l ≡ₚ l.
Proof.
  induction l as [|x l IH]; intros Hnd Hin; [done|].
  apply NoDup_cons in Hnd as [Hx Hnd]. rewrite list_elem_of_In in Hx. simpl.
  destruct (String.eqb_spec x query) as [->|Hne]; simpl.
  - rewrite filter_all_in; [done|].
    intros y Hy. apply neq_query_true. intros ->. contradiction.
  - destruct Hin as [->|Hin]; [done|]. rewrite Permutation_swap. by rewrite IH.
Qed.

Section SearchMore.
Context {J : JSON}.

Lemma search_state_success (ls : gmap string string) (st : Search.state)
    (results : Search.results) :
  trim (Search.searchQuery st) <> EmptyString ->
  (Search.search ls st (Fulfilled results)).1.2
  = {| Search.searchQuery := Search.searchQuery st;
       Search.searchResults := Search.documents_of results;
       Search.isSearching := false;
       Search.searchMode := Search.searchMode st;
       Search.recentSearches :=
         Search.updatedRecent (Search.searchQuery st) (Search.recentSearches st);
       Search.hasSearched := true |}.
Proof.
  intros Hq. unfold Search.search, Search.handleSearch_start.
  apply truthy_str_spec in Hq. by rewrite Hq.
Qed.

(** X10.  A search that fails, and a search with a blank query, keep what the page
    shows: the storage, the previous results, the recent searches and the
    query are as before.  The failed search shows one error toast and ends
    with the in-flight flag cleared; the blank one does nothing at all. *)
Theorem search_failure_keeps_results (ls : gmap string string) (st : Search.state)
    (reason : string) :
  let after := Search.search ls st (Rejected reason) in
  let blank := negb (truthy_str (trim (Search.searchQuery st))) in
  after.1.1 = ls
  /\ Search.searchResults after.1.2 = Search.searchResults st
  /\ Search.recentSearches after.1.2 = Search.recentSearches st
  /\ Search.searchQuery after.1.2 = Search.searchQuery st
  /\ Search.isSearching after.1.2 = (if blank then Search.isSearching st else false)
  /\ Search.hasSearched after.1.2 = (if blank then Search.hasSearched st else true)
  /\ after.2
     = (if blank then []
        else [Toast "Search Error" "Failed to search documents. Please try again." true]).
Proof.
  unfold Search.search, Search.handleSearch_start.
  by destruct (negb (truthy_str (trim (Search.searchQuery st)))).
Qed.

(** X11.  Searching the same query twice in a row: the second search leaves the
    recent-search list, and what is stored under [recentSearches], exactly as
    the first one left them, whatever the prior list was. *)
Theorem search_twice_same (ls : gmap string string) (st : Search.state)
    (first second : Search.results) :
  trim (Search.searchQuery st) <> EmptyString ->
  let once := (Search.search ls st (Fulfilled first)).1 in
  let twice := (Search.search once.1 once.2 (Fulfilled second)).1 in
  Search.recentSearches twice.2 = Search.recentSearches once.2
  /\ Storage.getItem "recentSearches" twice.1 = Storage.getItem "recentSearches" once.1.
Proof.
  intros Hq once twice.
  assert (trim (Search.searchQuery once.2) <> EmptyString) as Hq'.
  { subst once. by rewrite search_state_success. }
  destruct (search_success ls st first Hq) as [Hr1 Hl1].
  destruct (search_success once.1 once.2 second Hq') as [Hr2 Hl2].
  fold once in Hr1, Hl1. fold twice in Hr2, Hl2.
  assert (Search.searchQuery once.2 = Search.searchQuery st) as Hsame.
  { subst once. by rewrite search_state_success. }
  rewrite Hsame, Hr1 in Hr2, Hl2. rewrite updatedRecent_twice in Hr2, Hl2.
  split; [by rewrite Hr2, Hr1|].
  rewrite Hl2, Hl1. unfold Storage.getItem, Storage.setItem.
  by rewrite !lookup_insert_eq.
Qed.

(** X12.  A successful search for a query that is not in the list puts it in front
    of the first four prior entries: a fifth (and any later) entry, the least
    recent ones, are dropped. *)
Theorem search_new_query_evicts_oldest (ls : gmap string string) (st : Search.state)
    (results : Search.results) :
  trim (Search.searchQuery st) <> EmptyString ->
  Search.searchQuery st ∉ Search.recentSearches st ->
  Search.recentSearches (Search.search ls st (Fulfilled results)).1.2
  = Search.searchQuery st :: take 4 (Search.recentSearches st).
Proof.
  intros Hq Hnew. rewrite search_state_success by done. simpl.
  unfold Search.updatedRecent, slice0. simpl. f_equal. f_equal.
  apply filter_all_in. intros x Hx. apply neq_query_true. intros ->.
  by apply list_elem_of_In in Hx.
Qed.

(** X13.  Clicking a recent search runs it again: for a list of at most 5 distinct
    entries, the clicked query ends first and the list holds the same entries
    as before, none lost and none added. *)
Theorem recentSearch_permutes (query : string) (ls : gmap string string) (st : Search.state)
    (results : Search.results) :
  trim query <> EmptyString ->
  query ∈ Search.recentSearches st ->
  Spec.recent_search_list (Search.recentSearches st) ->
  let after := (Search.recentSearch query ls st (Fulfilled results)).1.2 in
  Search.searchQuery after = query
  /\ head (Search.recentSearches after) = Some query
  /\ Search.recentSearches after ≡ₚ Search.recentSearches st.
Proof.
  intros Hq Hin%list_elem_of_In [Hnd Hlen] after. subst after.
  unfold Search.recentSearch, Search.handleRecentSearch.
  rewrite search_state_success by done. simpl.
  rewrite updatedRecent_again by done. split; [done|]. split; [done|].
  by apply front_permutation.
Qed.

(** X14.  The recent searches survive a reload: after a successful search, the
    mount effect run on the storage the search left, in a fresh component,
    restores exactly the list the search computed.  This needs the stored
    text to be non-empty and to parse back to the array that was written. *)
Theorem recent_searches_survive_reload (ls : gmap string string) (st fresh : Search.state)
    (results : Search.results) :
  let updated := Search.updatedRecent (Search.searchQuery st) (Search.recentSearches st) in
  trim (Search.searchQuery st) <> EmptyString ->
  stringify (JArr (map JStr updated)) <> EmptyString ->
  parse (stringify (JArr (map JStr updated))) = Some (JArr (map JStr updated)) ->
  let after := (Search.search ls st (Fulfilled results)).1 in
  Search.loadRecentSearches after.1 fresh
  = Some (Search.setRecentSearches (Search.recentSearches after.2) fresh).
Proof.
  intros updated Hq Hne Hparse after.
  destruct (search_success ls st results Hq) as [Hr Hl]. fold updated in Hr, Hl.
  subst after. rewrite Hr, Hl. unfold Search.loadRecentSearches.
  unfold Storage.getItem, Storage.setItem. rewrite lookup_insert_eq.
  apply truthy_str_spec in Hne. rewrite Hne, Hparse. unfold try_catch.
  by rewrite strings_of_strings.
Qed.

End SearchMore.

Lemma search_twice_same_witness :
  trim (Search.searchQuery Examples.search_new) <> EmptyString
  /\ Search.recentSearches
       (@Search.search reference_json
          (@Search.search reference_json ∅ Examples.search_new (Fulfilled (Search.Bare []))).1.1
          (@Search.search reference_json ∅ Examples.search_new (Fulfilled (Search.Bare []))).1.2
          (Fulfilled (Search.Wrapped []))).1.2
     = Search.recentSearches
         (@Search.search reference_json ∅ Examples.search_new (Fulfilled (Search.Bare []))).1.2.
Proof.
  assert (trim (Search.searchQuery Examples.search_new) <> EmptyString) as Hq by done.
  split; [exact Hq|].
  apply (@search_twice_same reference_json ∅ Examples.search_new (Search.Bare [])
           (Search.Wrapped []) Hq).
Defined.

Lemma search_new_query_evicts_oldest_witness :
  (trim (Search.searchQuery Examples.search_new) <> EmptyString
   /\ Search.searchQuery Examples.search_new ∉ Search.recentSearches Examples.search_new)
  /\ Search.recentSearches
       (@Search.search reference_json ∅ Examples.search_new (Fulfilled (Search.Bare []))).1.2
     = ["tokens"; "auth"; "db"; "notes"; "jwt"].
Proof.
  assert (trim (Search.searchQuery Examples.search_new) <> EmptyString) as Hq by done.
  assert (Search.searchQuery Examples.search_new ∉ Search.recentSearches Examples.search_new)
    as Hnew.
  { apply (bool_decide_unpack _). by vm_compute. }
  split; [done|].
  exact (@search_new_query_evicts_oldest reference_json ∅ Examples.search_new
           (Search.Bare []) Hq Hnew).
Defined.

Lemma recentSearch_permutes_witness :
  (trim "notes" <> EmptyString /\ "notes" ∈ Search.recentSearches Examples.search_again)
  /\ Search.recentSearches
       (@Search.recentSearch reference_json "notes" ∅ Examples.search_again
          (Fulfilled (Search.Bare []))).1.2
     ≡ₚ Search.recentSearches Examples.search_again.
Proof.
  assert (trim "notes" <> EmptyString) as Hq by done.
  assert ("notes" ∈ Search.recentSearches Examples.search_again) as Hin.
  { apply (bool_decide_unpack _). by vm_compute. }
  assert (Spec.recent_search_list (Search.recentSearches Examples.search_again)) as Hl.
  { split; [|simpl; lia]. apply (bool_decide_unpack _). by vm_compute. }
  split; [done|].
  apply (@recentSearch_permutes reference_json "notes" ∅ Examples.search_again
           (Search.Bare []) Hq Hin Hl).
Defined.

Lemma recent_searches_survive_reload_witness :
  trim (Search.searchQuery Examples.search_again) <> EmptyString
  /\ @Search.loadRecentSearches Examples.flat_json
       (@Search.search Examples.flat_json ∅ Examples.search_again
          (Fulfilled (Search.Bare []))).1.1
       Examples.search_new
     = Some (Search.setRecentSearches ["db"; "auth"; "notes"] Examples.search_new).
Proof.
  assert (trim (Search.searchQuery Examples.search_again) <> EmptyString) as Hq by done.
  split; [exact Hq|].
  apply (@recent_searches_survive_reload Examples.flat_json ∅ Examples.search_again
           Examples.search_new (Search.Bare []) Hq); by vm_compute.
Defined.

(** ** Further properties of the Q&A page *)

Section TranscriptMore.
Context {J : JSON}.
Variable toISOString : Z -> string.

(** X15.  [clearHistory] empties the transcript and removes its persisted copy,
    leaving every other key, the input and the busy flag alone; the save
    effect that runs on the emptied transcript writes nothing, so the copy
    stays removed; and clearing again changes nothing more. *)
Theorem clearHistory_erases (ls : gmap string string) (st : QA.state) :
  let after := (QA.clearHistory ls st).1 in
  QA.messages after.2 = []
  /\ QA.currentQuestion after.2 = QA.currentQuestion st
  /\ QA.isAsking after.2 = QA.isAsking st
  /\ Storage.getItem "qaHistory" after.1 = None
  /\ (forall key, key <> "qaHistory" -> Storage.getItem key after.1 = Storage.getItem key ls)
  /\ QA.saveHistory toISOString after.1 after.2 = after.1
  /\ (QA.clearHistory after.1 after.2).1 = after.
Proof.
  simpl. unfold Storage.getItem, Storage.removeItem.
  rewrite lookup_delete_eq. repeat split; try done.
  - intros key Hk. by rewrite lookup_delete_ne.
  - f_equal. apply delete_id, lookup_delete_eq.
Qed.

(** X16.  Clearing the history while an ask is in flight does not cancel it: the
    busy flag stays set, and when the request settles the reply is appended
    to the emptied transcript, which then holds the reply alone, without its
    question; the save effect then persists that one entry. *)
Theorem clear_in_flight_keeps_reply (t1 t2 : Z) (ls : gmap string string) (st : QA.state)
    (asked : settled QA.QAResponse) :
  truthy_str (trim (QA.currentQuestion st)) && negb (QA.isAsking st) = true ->
  let pending := state_of (QA.handleAskQuestion_start t1 st) in
  let cleared := (QA.clearHistory ls pending).1 in
  let final := (QA.handleAskQuestion_resume t2 cleared.2 asked).1 in
  let reply :=
    match asked with
    | Fulfilled response => QA.answerMessage t2 response
    | Rejected _ => QA.errorMessage t2
    end in
  QA.isAsking cleared.2 = true
  /\ QA.messages final = [reply]
  /\ QA.type reply = QA.answer
  /\ QA.isAsking final = false
  /\ Storage.getItem "qaHistory" (QA.saveHistory toISOString cleared.1 final)
     = Some (stringify (JArr [QA.json_of_message toISOString reply])).
Proof.
  intros Hacc pending cleared final reply. subst final cleared pending reply.
  rewrite (handleAskQuestion_start_fresh _ _ Hacc).
  destruct asked as [response | reason]; simpl; repeat split;
    unfold Storage.getItem, Storage.setItem; apply lookup_insert_eq.
Qed.

(** X17.  An ask carried by the request wrapper.  Whatever [fetch] does, the
    transcript gains the question and one reply: the answer entry when the
    response is a 2xx one whose body can be read, and the fixed fallback
    entry in every other case (network failure, non-2xx response, unreadable
    body), so that no status text or failure reason reaches the transcript. *)
Theorem ask_over_http {E} (t1 t2 : Z) (st : QA.state)
    (fetched : settled (Api.response QA.QAResponse E)) :
  truthy_str (trim (QA.currentQuestion st)) && negb (QA.isAsking st) = true ->
  QA.messages (QA.ask t1 t2 st (Api.apiRequest_result fetched))
  = QA.messages st
    ++ [QA.questionMessage t1 (trim (QA.currentQuestion st));
        match fetched with
        | Fulfilled (Api.Success _ (Fulfilled response)) => QA.answerMessage t2 response
        | Fulfilled (Api.Success _ (Rejected _))
        | Fulfilled (Api.Failure _ _)
        | Rejected _ => QA.errorMessage t2
        end].
Proof.
  intros Hacc. unfold QA.ask. rewrite (handleAskQuestion_start_fresh _ _ Hacc).
  rewrite handleAskQuestion_resume_messages. simpl. rewrite <- app_assoc. simpl.
  by destruct fetched as [[text [response|reason] | text error] | reason].
Qed.

End TranscriptMore.

Lemma clear_in_flight_keeps_reply_witness :
  truthy_str (trim (QA.currentQuestion Examples.what_is_x))
  && negb (QA.isAsking Examples.what_is_x) = true
  /\ map QA.content
       (QA.messages
          (@QA.handleAskQuestion_resume 9
             (@QA.clearHistory ∅
                (state_of (@QA.handleAskQuestion_start reference_json 0 Examples.what_is_x))).1.2
             (Fulfilled Examples.x_is_y)).1)
     = ["X is Y"].
Proof.
  split; [reflexivity|].
  destruct (@clear_in_flight_keeps_reply reference_json (fun _ => EmptyString) 0 9 ∅
              Examples.what_is_x (Fulfilled Examples.x_is_y) eq_refl) as (_ & Hm & _).
  by rewrite Hm.
Defined.

Lemma ask_over_http_witness :
  truthy_str (trim (QA.currentQuestion Examples.what_is_x))
  && negb (QA.isAsking Examples.what_is_x) = true
  /\ map QA.content
       (QA.messages
          (@QA.ask reference_json 0 9 Examples.what_is_x
             (Api.apiRequest_result
                (Fulfilled (Api.Failure "Bad Gateway" (Rejected "no body" : settled unit))))))
     = ["What is X?"; QA.error_answer].
Proof.
  split; [reflexivity|].
  by rewrite (@ask_over_http reference_json unit 0 9 Examples.what_is_x
                (Fulfilled (Api.Failure "Bad Gateway" (Rejected "no body"))) eq_refl).
Defined.

Lemma transcript_ordered_witness :
  Spec.ordered Examples.empty_page
  /\ Spec.ordered (@QA.run reference_json Examples.empty_page Examples.double_submit)
  /\ map QA.content
       (QA.messages
          (QA.view (@QA.run reference_json Examples.empty_page Examples.double_submit)))
     = ["What is X?"; "X is Y"].
Proof.
  assert (Spec.ordered Examples.empty_page) as H0.
  { split; [reflexivity | constructor]. }
  split; [exact H0|]. split; [|reflexivity].
  exact (@transcript_ordered reference_json Examples.empty_page Examples.double_submit H0).
Defined.

(** ** Further properties of the edit/create flow *)

Lemma filter_none_in {A} (f : A -> bool) (l : list A) :
  (forall x, In x l -> f x = false) -> List.filter f l = [].
Proof.
  induction l as [|x l IH]; intros H; simpl; [done|].
  rewrite (H x) by (by left). apply IH. intros y Hy. apply H. by right.
Qed.

Lemma generated_tags_elem (tags : list string) (x : string) :
  x ∈ tags ++ List.filter (fun tag => negb (list_includes tags tag)) AddEditDoc.mockTags
  <-> x ∈ tags \/ x ∈ AddEditDoc.mockTags.
Proof.
  rewrite elem_of_app, !list_elem_of_In, filter_In.
  rewrite negb_true_iff, <- not_true_iff_false, list_includes_spec.
  destruct (list_includes tags x) eqn:H.
  - apply list_includes_spec in H. tauto.
  - assert (~ In x tags) by (rewrite <- list_includes_spec; congruence). tauto.
Qed.

Lemma generated_tags_NoDup (tags : list string) :
  NoDup tags ->
  NoDup (tags ++ List.filter (fun tag => negb (list_includes tags tag)) AddEditDoc.mockTags).
Proof.
  intros Hnd. apply NoDup_app. split; [done|]. split.
  - intros x Hx Hin. apply list_elem_of_In, filter_In in Hin as [_ Hin].
    apply negb_true_iff in Hin. apply list_elem_of_In, list_includes_spec in Hx. congruence.
  - eapply sublist_NoDup; [|apply filter_bool_sublist].
    apply (bool_decide_unpack _). by vm_compute.
Qed.

Lemma handleGenerateTags_tags (st : AddEditDoc.state) :
  AddEditDoc.tags (AddEditDoc.handleGenerateTags st).1
  = if negb (truthy_str (trim (AddEditDoc.content st))) then AddEditDoc.tags st
    else AddEditDoc.tags st
         ++ List.filter (fun tag => negb (list_includes (AddEditDoc.tags st) tag))
              AddEditDoc.mockTags.
Proof.
  unfold AddEditDoc.handleGenerateTags.
  destruct (negb (truthy_str (trim (AddEditDoc.content st)))); [done|].
  destruct (List.filter _ AddEditDoc.mockTags) as [|t l] eqn:Hf; simpl; [|done].
  by rewrite app_nil_r.
Qed.

(** X19.  The generate button of the form.  With a blank content it only shows an
    error toast.  Otherwise the tag list keeps its tags, in order, followed by
    the suggested tags that were missing, so that all three suggested tags are
    listed afterwards; the content and the generating flag are as before the
    click; and a second click adds nothing and says so. *)
Theorem handleGenerateTags_completes (st : AddEditDoc.state) :
  let once := AddEditDoc.handleGenerateTags st in
  if negb (truthy_str (trim (AddEditDoc.content st))) then
    once = (st, [Toast "Error" "Please add content before generating tags" true])
  else
    AddEditDoc.tags st `prefix_of` AddEditDoc.tags once.1
    /\ (forall tag, tag ∈ AddEditDoc.tags once.1
                    <-> tag ∈ AddEditDoc.tags st \/ tag ∈ AddEditDoc.mockTags)
    /\ AddEditDoc.content once.1 = AddEditDoc.content st
    /\ AddEditDoc.title once.1 = AddEditDoc.title st
    /\ AddEditDoc.isGeneratingTags once.1 = false
    /\ AddEditDoc.tags (AddEditDoc.handleGenerateTags once.1).1 = AddEditDoc.tags once.1
    /\ (AddEditDoc.handleGenerateTags once.1).2
       = [Toast "Info" "No new tags to add - document already has relevant tags." false].
Proof.
  intros once. destruct (negb (truthy_str (trim (AddEditDoc.content st)))) eqn:Hblank.
  { subst once. unfold AddEditDoc.handleGenerateTags. by rewrite Hblank. }
  assert (AddEditDoc.tags once.1
          = AddEditDoc.tags st
            ++ List.filter (fun tag => negb (list_includes (AddEditDoc.tags st) tag))
                 AddEditDoc.mockTags) as Htags.
  { subst once. by rewrite handleGenerateTags_tags, Hblank. }
  assert (AddEditDoc.content once.1 = AddEditDoc.content st) as Hcontent.
  { subst once. unfold AddEditDoc.handleGenerateTags. rewrite Hblank.
    by destruct (Nat.ltb 0 _). }
  assert (List.filter (fun tag => negb (list_includes (AddEditDoc.tags once.1) tag))
            AddEditDoc.mockTags = []) as Hnone.
  { apply filter_none_in. intros x Hx. apply negb_false_iff, list_includes_spec.
    apply list_elem_of_In. rewrite Htags. apply generated_tags_elem. right.
    by apply list_elem_of_In. }
  split; [rewrite Htags; by eexists|].
  split; [intros tag; rewrite Htags; apply generated_tags_elem|].
  split; [done|].
  split; [subst once; unfold AddEditDoc.handleGenerateTags; rewrite Hblank;
          by destruct (Nat.ltb 0 _)|].
  split; [subst once; unfold AddEditDoc.handleGenerateTags; rewrite Hblank;
          by destruct (Nat.ltb 0 _)|].
  split.
  - rewrite handleGenerateTags_tags, Hcontent, Hblank, Hnone. apply app_nil_r.
  - unfold AddEditDoc.handleGenerateTags at 1. rewrite Hcontent, Hblank, Hnone. done.
Qed.

(** X20.  [handleRemoveTag] removes every occurrence of the tag and nothing else:
    the tag is not listed afterwards, every other tag is listed exactly when
    it was, in the same order, and removing a tag that is not listed changes
    nothing. *)
Theorem handleRemoveTag_removes (tag : string) (st : AddEditDoc.state) :
  let after := AddEditDoc.tags (AddEditDoc.handleRemoveTag tag st) in
  (tag ∉ after)
  /\ (forall other, other <> tag -> (other ∈ after <-> other ∈ AddEditDoc.tags st))
  /\ after `sublist_of` AddEditDoc.tags st
  /\ (if list_includes (AddEditDoc.tags st) tag then True
      else AddEditDoc.handleRemoveTag tag st = st).
Proof.
  simpl. split; [|split; [|split]].
  - rewrite list_elem_of_In. apply filter_out_query_not_in.
  - intros other Hne. rewrite !list_elem_of_In, filter_In, neq_query_true. tauto.
  - apply filter_bool_sublist.
  - destruct (list_includes (AddEditDoc.tags st) tag) eqn:Hin; [done|].
    unfold AddEditDoc.handleRemoveTag. rewrite filter_all_in; [by destruct st|].
    intros x Hx. apply neq_query_true. intros ->.
    apply list_includes_spec in Hx. congruence.
Qed.

(** X21.  Adding a tag and then removing it restores the tag list, when the
    normalised input was not listed before. *)
Theorem handleAddTag_undo (st : AddEditDoc.state) :
  toLowerCase (trim (AddEditDoc.newTag st)) ∉ AddEditDoc.tags st ->
  AddEditDoc.tags
    (AddEditDoc.handleRemoveTag (toLowerCase (trim (AddEditDoc.newTag st)))
       (AddEditDoc.handleAddTag st))
  = AddEditDoc.tags st.
Proof.
  intros Hnew. set (tag := toLowerCase (trim (AddEditDoc.newTag st))) in *.
  assert (List.filter (fun t => negb (String.eqb t tag)) (AddEditDoc.tags st)
          = AddEditDoc.tags st) as Hkeep.
  { apply filter_all_in. intros x Hx. apply neq_query_true. intros ->.
    by apply list_elem_of_In in Hx. }
  unfold AddEditDoc.handleAddTag. fold tag.
  destruct (truthy_str tag && negb (list_includes (AddEditDoc.tags st) tag)); simpl.
  - rewrite List.filter_app, Hkeep. simpl. rewrite String.eqb_refl. apply app_nil_r.
  - exact Hkeep.
Qed.

Lemma handleAddTag_undo_witness :
  (toLowerCase (trim (AddEditDoc.newTag Examples.tagging_form))
   ∉ AddEditDoc.tags Examples.tagging_form)
  /\ AddEditDoc.tags (AddEditDoc.handleAddTag Examples.tagging_form) = ["draft"; "knowledge"]
  /\ AddEditDoc.tags
       (AddEditDoc.handleRemoveTag "knowledge" (AddEditDoc.handleAddTag Examples.tagging_form))
     = ["draft"].
Proof.
  assert (toLowerCase (trim (AddEditDoc.newTag Examples.tagging_form))
          ∉ AddEditDoc.tags Examples.tagging_form) as H.
  { apply (bool_decide_unpack _). by vm_compute. }
  split; [exact H|]. split; [reflexivity|].
  exact (handleAddTag_undo Examples.tagging_form H).
Defined.

Lemma edit_tags_NoDup (st : AddEditDoc.state) (e : AddEditDoc.tag_edit) :
  NoDup (AddEditDoc.tags st) -> NoDup (AddEditDoc.tags (AddEditDoc.edit_tags st e)).
Proof.
  intros Hnd. destruct e as [text | | tag |]; simpl.
  - done.
  - unfold AddEditDoc.handleAddTag.
    destruct (truthy_str _ && negb (list_includes _ _)) eqn:Hc; [|done]. simpl.
    apply andb_true_iff in Hc as [_ Hc]. apply negb_true_iff in Hc.
    apply NoDup_app. split; [done|]. split; [|apply NoDup_singleton].
    intros x Hx ->%list_elem_of_singleton.
    apply list_elem_of_In, list_includes_spec in Hx. congruence.
  - eapply sublist_NoDup; [done | apply filter_bool_sublist].
  - rewrite handleGenerateTags_tags.
    destruct (negb (truthy_str (trim (AddEditDoc.content st)))); [done|].
    by apply generated_tags_NoDup.
Qed.

(** X22.  The tag list stays free of duplicates under every sequence of edits:
    typing, adding, removing and generating. *)
Theorem tags_stay_distinct (st : AddEditDoc.state) (edits : list AddEditDoc.tag_edit) :
  NoDup (AddEditDoc.tags st) ->
  NoDup (AddEditDoc.tags (fold_left AddEditDoc.edit_tags edits st)).
Proof.
  revert st. induction edits as [|e edits IH]; intros st Hnd; [done|].
  simpl. apply IH. by apply edit_tags_NoDup.
Qed.

Lemma tags_stay_distinct_witness :
  NoDup (AddEditDoc.tags Examples.tagging_form)
  /\ NoDup
       (AddEditDoc.tags
          (fold_left AddEditDoc.edit_tags
             [AddEditDoc.AddTag; AddEditDoc.GenerateTags; AddEditDoc.TypeTag "DRAFT";
              AddEditDoc.AddTag; AddEditDoc.RemoveTag "knowledge"; AddEditDoc.GenerateTags]
             Examples.tagging_form)).
Proof.
  assert (NoDup (AddEditDoc.tags Examples.tagging_form)) as H.
  { apply (bool_decide_unpack _). by vm_compute. }
  split; [exact H|]. exact (tags_stay_distinct Examples.tagging_form _ H).
Defined.

Section EditFlowMore.
Context {J : JSON}.

(** X23.  A submission that fails is recoverable: the title, content, tags and tag
    input are kept, the submitting flag is cleared, one error toast is shown
    and the page does not navigate, so that submitting again issues the same
    request; a submission that succeeds navigates to the dashboard. *)
Theorem submit_failure_recoverable {B} (id : option string) (st : AddEditDoc.state)
    (reason : string) (body : B) :
  trim (AddEditDoc.title st) <> EmptyString ->
  trim (AddEditDoc.content st) <> EmptyString ->
  let failed := AddEditDoc.submit id st (Rejected reason : settled B) in
  let saved := AddEditDoc.submit id st (Fulfilled body) in
  failed.1 = AddEditDoc.setIsSubmitting false st
  /\ failed.2
     = [Toast "Error"
          ("Failed to " +:+ (if truthy_opt id then "update" else "create") +:+ " document") true]
  /\ request_of (AddEditDoc.handleSubmit_start id failed.1)
     = request_of (AddEditDoc.handleSubmit_start id st)
  /\ is_Some (request_of (AddEditDoc.handleSubmit_start id st))
  /\ saved.1 = AddEditDoc.setIsSubmitting false st
  /\ last saved.2 = Some (Navigate "/dashboard").
Proof.
  intros Ht Hc failed saved. subst failed saved.
  unfold AddEditDoc.submit, AddEditDoc.handleSubmit_start.
  apply truthy_str_spec in Ht, Hc. rewrite Ht, Hc. simpl. rewrite Ht, Hc. simpl.
  repeat split; done.
Qed.

(** X24.  Opening a document and saving it unchanged.  With a non-empty route
    parameter, a successful load fills the form from the fetched document
    (an absent tag list becomes the empty list) and clears the loading flag;
    submitting then issues an update of that same document carrying the
    trimmed title, the trimmed content and the loaded tags.  A failed load
    leaves the form fields as they were and navigates to the dashboard. *)
Theorem open_then_submit (id : option string) (i : string) (st : AddEditDoc.state)
    (document : AddEditDoc.fetched_document) (reason : string) :
  AddEditDoc.editing id = Some i ->
  trim (AddEditDoc.fetched_title document) <> EmptyString ->
  trim (AddEditDoc.fetched_content document) <> EmptyString ->
  let opened := (AddEditDoc.openDocument id st (Fulfilled document)).1 in
  let failed := AddEditDoc.openDocument id st (Rejected reason) in
  AddEditDoc.isLoadingDoc opened = false
  /\ AddEditDoc.tags opened = or_list (AddEditDoc.fetched_tags document) []
  /\ request_of (AddEditDoc.handleSubmit_start id opened)
     = Some (Api.update i (trim (AddEditDoc.fetched_title document))
               (trim (AddEditDoc.fetched_content document))
               (or_list (AddEditDoc.fetched_tags document) []))
  /\ failed.1 = AddEditDoc.setIsLoadingDoc false st
  /\ failed.2 = [Toast "Error" "Failed to fetch document" true; Navigate "/dashboard"].
Proof.
  intros Hid Ht Hc opened failed. subst opened failed.
  unfold AddEditDoc.openDocument, AddEditDoc.handleSubmit_start. rewrite Hid. simpl.
  apply truthy_str_spec in Ht, Hc. rewrite Ht, Hc. simpl.
  repeat split; done.
Qed.

End EditFlowMore.

Lemma submit_failure_recoverable_witness :
  (trim (AddEditDoc.title Examples.tagging_form) <> EmptyString
   /\ trim (AddEditDoc.content Examples.tagging_form) <> EmptyString)
  /\ (@AddEditDoc.submit reference_json unit None Examples.tagging_form (Rejected "offline")).1
     = Examples.tagging_form.
Proof.
  split; [split; discriminate|].
  destruct (@submit_failure_recoverable reference_json unit None Examples.tagging_form
              "offline" tt) as [Hst _]; [discriminate | discriminate |].
  exact Hst.
Defined.

Lemma open_then_submit_witness :
  AddEditDoc.editing (Some "42") = Some "42"
  /\ request_of
       (@AddEditDoc.handleSubmit_start reference_json (Some "42")
          (AddEditDoc.openDocument (Some "42") Examples.blank_title_form
             (Fulfilled Examples.stored_document)).1)
     = Some (@Api.update reference_json "42" "Auth Guide" "How to log in" []).
Proof.
  split; [reflexivity|].
  destruct (@open_then_submit reference_json (Some "42") "42" Examples.blank_title_form
              Examples.stored_document "offline" eq_refl) as (_ & _ & Hreq & _);
    [discriminate | discriminate |].
  exact Hreq.
Defined.

(** ** Properties of the document card *)

Lemma string_length_app (a b : string) :
  String.length (a +:+ b) = (String.length a + String.length b)%nat.
Proof. induction a as [|c a IH]; [done|]. rewrite append_cons. simpl. by rewrite IH. Qed.

Lemma substring0_length (n : nat) (s : string) :
  String.length (substring0 n s) = Nat.min n (String.length s).
Proof.
  revert s. induction n as [|n IH]; intros [|c s]; simpl; try done. by rewrite IH.
Qed.

Lemma substring0_prefix (n : nat) (s : string) :
  exists dropped, s = substring0 n s +:+ dropped.
Proof.
  revert s. induction n as [|n IH]; intros s.
  - exists s. by destruct s.
  - destruct s as [|c s]; [by exists EmptyString|].
    destruct (IH s) as [dropped H]. exists dropped. simpl. rewrite append_cons. by rewrite <- H.
Qed.

Lemma truncateContent_length (content : string) (maxLength : Z) :
  (String.length (DocCard.truncateContent content maxLength) <= Z.to_nat maxLength + 3)%nat.
Proof.
  unfold DocCard.truncateContent.
  destruct (Z.gtb_spec (Z.of_nat (String.length content)) maxLength) as [Hgt | Hle].
  - rewrite string_length_app, substring0_length. simpl. lia.
  - lia.
Qed.

(** X25.  [truncateContent] keeps a text that fits as it is, and otherwise keeps
    its first [maxLength] characters and appends three dots; the result is
    never longer than [maxLength + 3], so the text a card shows (the summary
    when there is a non-empty one, the content otherwise) has at most 153
    characters. *)
Theorem truncateContent_bounds (content : string) (maxLength : Z) (doc : Dashboard.Document) :
  (exists kept dropped,
     content = kept +:+ dropped
     /\ DocCard.truncateContent content maxLength
        = kept +:+ (if Z.of_nat (String.length content) >? maxLength then "..." else "")
     /\ (if Z.of_nat (String.length content) >? maxLength
         then String.length kept = Z.to_nat maxLength
         else dropped = EmptyString))
  /\ (String.length (DocCard.truncateContent content maxLength) <= Z.to_nat maxLength + 3)%nat
  /\ (String.length (DocCard.preview doc) <= 153)%nat.
Proof.
  split; [|split; [apply truncateContent_length|]].
  - unfold DocCard.truncateContent.
    destruct (Z.gtb_spec (Z.of_nat (String.length content)) maxLength) as [Hgt | Hle].
    + destruct (substring0_prefix (Z.to_nat maxLength) content) as [dropped H].
      exists (substring0 (Z.to_nat maxLength) content), dropped.
      split; [done|]. split; [done|]. rewrite substring0_length. lia.
    + exists content, EmptyString. split; [|split; [|done]].
      * clear. induction content as [|c s IH]; [done|]. rewrite append_cons. by rewrite <- IH.
      * clear. induction content as [|c s IH]; [done|]. rewrite append_cons. by rewrite <- IH.
  - unfold DocCard.preview.
    destruct (Dashboard.summary doc) as [s|]; [destruct (truthy_str s)|];
      apply (truncateContent_length _ 150).
Qed.

(** X26.  Who may edit a document.  A signed-in user may edit exactly when the
    role is admin or the e-mail is the creator's; with no user (a signed-out
    session) and with a user object that carries neither a role nor an
    e-mail, nothing can be edited. *)
Theorem canEdit_rule (u : Auth.User) (doc : Dashboard.Document) :
  DocCard.canEdit (Auth.json_of_user u) doc
  = (match Auth.role u with Auth.RoleAdmin => true | Auth.RoleUser => false end
     || String.eqb (Auth.email u) (Dashboard.author_email (Dashboard.createdBy doc)))
  /\ DocCard.canEdit JNull doc = false
  /\ DocCard.canEdit (JObj []) doc = false.
Proof.
  split; [|done]. unfold DocCard.canEdit, Auth.json_of_user. simpl.
  by destruct (Auth.role u).
Qed.

(** X27.  The tag badges of a card: at most three tags are shown, they are the
    first ones in order, and the ["+N more"] badge appears exactly when there
    are more than three tags and counts the ones not shown. *)
Theorem card_tags_accounted (doc : Dashboard.Document) :
  (length (DocCard.shownTags doc) <= 3)%nat
  /\ DocCard.shownTags doc `prefix_of` Dashboard.tags doc
  /\ (length (DocCard.shownTags doc) + default 0%nat (DocCard.moreTags doc))%nat
     = length (Dashboard.tags doc)
  /\ (DocCard.moreTags doc = None <-> (length (Dashboard.tags doc) <= 3)%nat).
Proof.
  unfold DocCard.shownTags, DocCard.moreTags, slice0.
  split; [apply firstn_le_length|]. split; [apply prefix_take|].
  rewrite length_take.
  destruct (Nat.ltb_spec 3 (length (Dashboard.tags doc))); cbn [default from_option]; unfold id;
    (split; [lia|]); split; try done; lia.
Qed.
